(* ===== verification/_CoqProject ===== *)
-Q . S2P
Prelude.v
PyStr.v
Werkzeug.v
PyDict.v
Xml.v
Extract.v
Aggregate.v
Table.v
Server.v
