(* ===== verification/Prelude.v ===== *)
(** * A verification development of sonkate/extract_xml (src/app.py)

    The program is a small Flask application.  A user uploads a [.zip]
    archive or a single [.xml] e-invoice file ([upload_file]); the file is
    saved under [uploads/] and the browser is redirected to
    [/process/<filename>] ([process_file]), which unpacks the archive (or
    moves the XML file) into [uploads/extracted/], walks that directory,
    runs [extract_all_info_from_xml] on every file whose name ends in
    [.xml], concatenates the rows, turns them into a pandas [DataFrame],
    writes [uploads/output.xlsx] and sends it back.

    [extract_all_info_from_xml] is the core: for every [DLHDon] child of the
    document root it builds a Python dict (one spreadsheet row) by reading
    fixed paths of the invoice tree ([TTChung], [TTKhac/TTin], [NDHDon/NBan],
    [NDHDon/TToan]).

    ** Files, and what each models

    - [Prelude] (this file): Python's exceptions as the inductive [PyExc], a
      computation that may raise as [PyResult] (a stdpp monad: [x ← c; k]),
      attribute access on a value that may be [None] ([deref]), and a Python
      [for] loop over a list whose body may raise ([py_for]), with the
      lemmas and the [pyrt] hint database the other files share.
    - [PyStr]: the string methods the code calls, with their Python
      meaning: ['.' in s], [s.rsplit('.', 1)], [s.lower()] (ASCII) and
      [s.endswith(suffix)].
    - [Werkzeug]: the library function [secure_filename] that
      [upload_file] calls, step by step on UTF-8 bytes (POSIX host), the
      NFKD normalisation being a parameter, with what it guarantees.
    - [PyDict]: Python's insertion-ordered [dict] as an association list
      ([dict_set] is [d[k] = v]: update in place, or append a new key), its
      well-formedness (no duplicate key), a refinement onto stdpp's [gmap]
      (the abstract finite map a dict denotes) and Python's [==] on dicts as
      a setoid equivalence with [Proper] instances.
    - [Xml]: the part of [xml.etree.ElementTree] the program calls: an
      [Element] with a tag, an optional [.text] and its children;
      [find] (first direct child with a tag) and [findall] (all direct
      children with a tag), and the idiom
      [x.find(t).text if x.find(t) is not None else None] as [find_text].
    - [Extract]: [extract_all_info_from_xml], statement by statement: the
      [TTKhac/TTin] loop ([ttkhac_loop]), the record of one [DLHDon]
      ([extract_hdon]) and the loop over the root's [DLHDon] children
      ([extract_all_info_from_xml]).  The abstract record of the spec
      (9 optional fields and a structure error) is [InvoiceSpec.spec_invoice], and the
      refinement theorem relates the two.
    - [Aggregate]: the loop of [process_file] over the walked files
      ([aggregate]) with [data.extend] and fail-fast exceptions.
    - [Table]: the [pandas.DataFrame(data)] the rows become ([dataframe]:
      columns are the union of the dict keys in first-seen order, a missing
      key or a [None] value is an empty cell) and the rows [to_excel]
      writes (a header row, then the data).
    - [Server]: the file store, [uploads/] and [uploads/extracted/], as two
      stdpp maps ([State]); [allowed_file]; the index page, [upload_file]
      and [process_file] (lines 18-61) as handlers [State -> State * Response],
      an uncaught exception being an HTTP 500 ([ServerError]) whose earlier
      writes persist; [serve], a sequence of requests handled one after the
      other; [reachable], the states a server reaches from its start.
      werkzeug's [secure_filename] and [os.walk] are Section parameters;
      the theorems assume only that the walk lists every stored file once
      ([walk_lists]); the last ones use the [Werkzeug] model.

    ** What the theorems show

    - Extraction: one row per [DLHDon] in document order; the invoice
      number is the plain concatenation [KHHDon ++ SHDon]; the seller's tax
      code wins over [MSTTCGP]; the two money columns are always equal; bank
      fields come only from [TTKhac]; the exact error raised when a
      structural subtree is missing, and the divergences from the spec
      (a missing [KHHDon]/[SHDon] leaf raises [TypeError]; a [TTin] entry
      without [TTruong] or [DLieu] raises).
    - Aggregation: the result is the concatenation of the per-file results
      in walk order; the first failing file aborts the whole run.
    - Table: the columns are exactly the keys seen, each once, the first
      record's keys first and in their order; each cell is the record's
      value, empty for [None] or a missing key.
    - Server: [allowed_file] accepts exactly a last extension of [zip] or
      [xml] in any case; [upload_file] never touches the extracted folder;
      that folder only grows over any run of requests, so every export
      holds the rows of every earlier upload, and one [.xml] file there that
      does not extract makes every later export fail until that path is
      written again; an upload named [A.XML] or [B.ZIP] is accepted but
      never read (empty sheet); processing a single XML upload twice raises
      [FileNotFoundError]; the two money columns of every sheet sent agree.
      End to end: on a fresh server, uploading an XML invoice (or a ZIP of
      them) and following the redirect returns exactly the sheet of its
      rows (of its [.xml] members' rows, in walk order); in every reachable
      state [uploads/] holds only sheets the server wrote, as
      [output.xlsx], and files under sanitised allowed names, and
      [output.xlsx] is the sheet of the last [send_file] response.  With
      werkzeug's [secure_filename]: a saved name never leaves [uploads/],
      saving never fails, and a file named in a non-Latin script (Chinese
      for [invoice.xml]) is saved as [xml] and silently left out of the
      sheet.

    ** Bounds and what is not modelled

    Nothing here needs fuel: every loop runs over a finite list and every
    definition is structural.  Not modelled: Flask's routing and templates,
    the Unicode NFKD table used by [secure_filename] (a parameter), the
    byte level of XML parsing and of ZIP decoding (a stored file is a [Blob] that
    either parses to an [Element] tree / a member list or does not), the
    sanitising of ZIP member names, a ZIP that fails half-way through
    extraction, the directory order of [os.walk] (a parameter enumerating
    the stored paths), concurrent requests, and the [.xlsx] encoding (so
    nothing is claimed of what a spreadsheet program reads back, e.g. a
    cell beginning with [=], which openpyxl writes as a formula). *)

From stdpp Require Export base list option strings gmap fin_maps.

Declare Scope py_scope.
Delimit Scope py_scope with py.

(** ** Python exceptions and computations that may raise *)

(** The exceptions [src/app.py] can raise while serving a request. *)
Inductive PyExc :=
| AttributeError (attr : string)
    (** ['NoneType' object has no attribute attr] *)
| TypeError
    (** [None + str] or [str + None] *)
| ParseError
    (** [xml.etree.ElementTree.ParseError] *)
| BadZipFile
| FileNotFoundError (path : string)
| IsADirectoryError (path : string).

#[export] Instance PyExc_eq_dec : EqDecision PyExc.
Proof. solve_decision. Defined.

Inductive PyResult (A : Type) :=
| Ok (a : A)
| Raise (e : PyExc).
Arguments Ok {A} a.
Arguments Raise {A} e.

#[export] Instance py_ret : MRet PyResult := λ A a, Ok a.
#[export] Instance py_bind : MBind PyResult :=
  λ A B f c, match c with Ok a => f a | Raise e => Raise e end.

(** [x.attr] where [x] may be [None]. *)
Definition deref {A} (o : option A) (attr : string) : PyResult A :=
  match o with Some x => Ok x | None => Raise (AttributeError attr) end.

Notation "o '·' attr" := (deref o attr) (at level 9, attr at level 0) : py_scope.

(** A value the code needs, or the exception raised when it is missing (an
    [open] of a path that does not exist, a [ZipFile] of bytes that are not
    an archive). *)
Definition ok_or {A} (o : option A) (e : PyExc) : PyResult A :=
  match o with Some x => Ok x | None => Raise e end.

(** [for x in xs: s = body(s, x)]: the first raising iteration ends the loop. *)
Fixpoint py_for {S A} (body : S → A → PyResult S) (xs : list A) (s : S)
    : PyResult S :=
  match xs with
  | [] => Ok s
  | x :: xs' => s' ← body s x; py_for body xs' s'
  end.

(** ** Lemmas on [PyResult] *)

Section py_result.
Context {A B : Type}.

Lemma bind_Ok (a : A) (f : A → PyResult B) : (Ok a ≫= f) = f a.
Proof. done. Qed.

Lemma bind_Raise e (f : A → PyResult B) : (Raise e ≫= f) = Raise e.
Proof. done. Qed.

Lemma bind_Ok_inv (c : PyResult A) (f : A → PyResult B) b :
  (c ≫= f) = Ok b → ∃ a, c = Ok a ∧ f a = Ok b.
Proof. destruct c; simpl; [eauto | discriminate]. Qed.

Lemma bind_Raise_inv (c : PyResult A) (f : A → PyResult B) e :
  (c ≫= f) = Raise e → c = Raise e ∨ ∃ a, c = Ok a ∧ f a = Raise e.
Proof. destruct c; simpl; [eauto | intros [= ->]; auto]. Qed.

Lemma deref_Some (a : A) attr : deref (Some a) attr = Ok a.
Proof. done. Qed.

Lemma deref_None attr : deref (@None A) attr = Raise (AttributeError attr).
Proof. done. Qed.
End py_result.

Create HintDb pyrt discriminated.
Create Rewrite HintDb pyrt.
#[export] Hint Rewrite @bind_Ok @bind_Raise @deref_Some @deref_None : pyrt.

(** Split an equation [c ≫= f = Ok b] (or [= Raise e]) of a hypothesis on
  the value of [c]. *)
Ltac py_inv H :=
match type of H with
| (deref ?o _ ≫= _) = _ =>
    let E := fresh "E" in
    destruct o eqn:E; cbn [mbind py_bind deref] in H; try discriminate H
| (?c ≫= _) = _ =>
    let E := fresh "E" in
    destruct c eqn:E; cbn [mbind py_bind] in H; try discriminate H
| deref ?o _ = _ =>
    let E := fresh "E" in
    destruct o eqn:E; cbn [deref] in H; try discriminate H
end.

(** ** The [for] loop *)

Section py_for.
Context {S A : Type} (body : S → A → PyResult S).

Lemma py_for_nil s : py_for body [] s = Ok s.
Proof. done. Qed.

Lemma py_for_cons x xs s :
  py_for body (x :: xs) s = (s' ← body s x; py_for body xs s').
Proof. done. Qed.

Lemma py_for_app xs ys s :
  py_for body (xs ++ ys) s = (s' ← py_for body xs s; py_for body ys s').
Proof.
  revert s; induction xs as [|x xs IH]; intros s; simpl; [done|].
  destruct (body s x); simpl; auto.
Qed.

(** An invariant of the loop state, preserved by every iteration that
    does not raise, holds of the state the loop returns. *)
Lemma py_for_invariant (P : S → Prop) xs s s' :
  (∀ s0 x s1, x ∈ xs → P s0 → body s0 x = Ok s1 → P s1) →
  P s → py_for body xs s = Ok s' → P s'.
Proof.
  revert s; induction xs as [|x xs IH]; intros s Hstep Hs H; simpl in H.
  - by injection H as <-.
  - py_inv H. eapply IH; [|eapply Hstep; eauto; left|exact H].
    intros; eapply Hstep; eauto; by right.
Qed.

(** A loop whose body never raises never raises. *)
Lemma py_for_total xs s :
  (∀ s0 x, x ∈ xs → ∃ s1, body s0 x = Ok s1) →
  ∃ s', py_for body xs s = Ok s'.
Proof.
  revert s; induction xs as [|x xs IH]; intros s Hb; simpl; [eauto|].
  destruct (Hb s x) as [s1 ->]; [left|]. simpl.
  apply IH. intros; apply Hb; by right.
Qed.
End py_for.

#[export] Hint Rewrite @py_for_nil @py_for_cons @py_for_app : pyrt.

(** ** A loop that extends a list is a monadic map *)

(** [[f x for x in xs]] where [f] may raise: the first exception wins. *)
Fixpoint py_mapM {A B} (f : A → PyResult B) (xs : list A) : PyResult (list B) :=
match xs with
| [] => Ok []
| x :: xs' => y ← f x; ys ← py_mapM f xs'; Ok (y :: ys)
end.

Section py_mapM.
Context {A B C : Type} (f : A → PyResult B).

Lemma py_mapM_Ok xs ys :
  py_mapM f xs = Ok ys ↔ Forall2 (λ x y, f x = Ok y) xs ys.
Proof.
  revert ys; induction xs as [|x xs IH]; intros ys; simpl.
  - split; [intros [= <-]; constructor | intros H; by inversion H].
  - split.
    + intros H. py_inv H. py_inv H. injection H as <-.
      constructor; [done|]. by apply IH.
    + intros H. inversion H as [|? y ? ys' Hx Hxs]; subst.
      rewrite Hx; simpl. apply IH in Hxs. by rewrite Hxs.
Qed.

(** Fail-fast: the map raises the exception of its first raising element,
    after every earlier element succeeded. *)
Lemma py_mapM_Raise xs e :
  py_mapM f xs = Raise e ↔
    ∃ pre x post ys, xs = pre ++ x :: post ∧
      Forall2 (λ x y, f x = Ok y) pre ys ∧ f x = Raise e.
Proof.
  induction xs as [|x xs IH]; simpl.
  - split; [discriminate|]. intros (pre & ? & ? & ? & Hxs & _).
    by destruct pre.
  - split.
    + intros H. destruct (f x) as [y|e'] eqn:Hx; simpl in H.
      * destruct (py_mapM f xs) eqn:Hxs; simpl in H; [discriminate|].
        injection H as ->. destruct (proj1 IH eq_refl)
          as (pre & z & post & ys & -> & Hpre & Hz).
        exists (x :: pre), z, post, (y :: ys). split_and!; [done| |done].
        by constructor.
      * injection H as ->. by exists [], x, xs, [].
    + intros (pre & z & post & ys & Hxs & Hpre & Hz).
      destruct pre as [|p pre]; simpl in Hxs; injection Hxs as -> ->.
      * by rewrite Hz.
      * inversion Hpre as [|? y ? ys' Hp Hpre']; subst.
        rewrite Hp; simpl. rewrite (proj2 IH); [done|].
        by exists pre, z, post, ys'.
Qed.

Lemma py_mapM_app xs ys :
  py_mapM f (xs ++ ys) =
    (as_ ← py_mapM f xs; bs ← py_mapM f ys; Ok (as_ ++ bs)).
Proof.
  induction xs as [|x xs IH]; simpl.
  - by destruct (py_mapM f ys).
  - destruct (f x); simpl; [|done]. rewrite IH.
    destruct (py_mapM f xs); simpl; [|done]. by destruct (py_mapM f ys).
Qed.

(** [for x in xs: data.extend(g(f(x)))], with [data] starting at [acc]. *)
Lemma py_for_extend (g : B → list C) xs acc :
  py_for (λ data x, y ← f x; Ok (data ++ g y)) xs acc =
    (ys ← py_mapM f xs; Ok (acc ++ mbind g ys)).
Proof.
  revert acc; induction xs as [|x xs IH]; intros acc; simpl.
  - by rewrite app_nil_r.
  - destruct (f x) as [y|e]; simpl; [|done]. rewrite IH.
    destruct (py_mapM f xs); simpl; [|done]. by rewrite app_assoc.
Qed.
End py_mapM.

(** [for x in xs: if p(x): data.extend(f(x))]: the loop is the monadic map
  of [f] over the elements [p] accepts, concatenated onto [acc]. *)
Lemma py_for_extend_filter {A B} (body : list B → A → PyResult (list B))
  (p : A → bool) (f : A → PyResult (list B)) xs acc :
(∀ data x, body data x = if p x then ys ← f x; Ok (data ++ ys) else Ok data) →
py_for body xs acc =
  (yss ← py_mapM f (filter (λ x, p x = true) xs); Ok (acc ++ mjoin yss)).
Proof.
intros Hbody. revert acc; induction xs as [|x xs IH]; intros acc.
- simpl. by rewrite app_nil_r.
- rewrite filter_cons. cbn [py_for]. rewrite Hbody. destruct (p x) eqn:Hp.
  + rewrite decide_True by done. cbn [py_mapM].
    destruct (f x) as [ys|e]; cbn [mbind py_bind]; [|done].
    rewrite IH. destruct (py_mapM f _); cbn [mbind py_bind]; [|done].
    rewrite <- app_assoc. done.
  + rewrite decide_False by congruence. apply IH.
Qed.

(** ** Lists *)

Section lists.
Context {A B : Type}.

Lemma Forall2_elem_r (P : A → B → Prop) xs ys y :
  Forall2 P xs ys → y ∈ ys → ∃ x, x ∈ xs ∧ P x y.
Proof.
  intros HP (i & Hi)%list_elem_of_lookup.
  destruct (Forall2_lookup_r _ _ _ _ _ HP Hi) as (x & Hx & ?).
  exists x. split; [by eapply list_elem_of_lookup_2|done].
Qed.

Lemma Forall2_elem_l (P : A → B → Prop) xs ys x :
  Forall2 P xs ys → x ∈ xs → ∃ y, y ∈ ys ∧ P x y.
Proof.
  intros HP (i & Hi)%list_elem_of_lookup.
  destruct (Forall2_lookup_l _ _ _ _ _ HP Hi) as (y & Hy & ?).
  exists y. split; [by eapply list_elem_of_lookup_2|done].
Qed.

(** A member of a list of lists is a contiguous block of their join. *)
Lemma join_infix (ys : list A) (yss : list (list A)) :
  ys ∈ yss → ∃ pre post, mjoin yss = pre ++ ys ++ post.
Proof.
  induction yss as [|zs yss IH]; [by intros ?%elem_of_nil|].
  intros [->|Hin]%elem_of_cons.
  - exists [], (mjoin yss). done.
  - destruct (IH Hin) as (pre & post & Heq). exists (zs ++ pre), post.
    simpl. rewrite Heq. by rewrite app_assoc.
Qed.

(** A relation total on a list's elements relates the list to some list. *)
Lemma Forall_Forall2_exists (P : A → B → Prop) xs :
  Forall (λ x, ∃ y, P x y) xs → ∃ ys, Forall2 P xs ys.
Proof.
  induction 1 as [|x xs [y Hy] _ [ys Hys]]; [by exists []|]. exists (y :: ys). by constructor.
Qed.
End lists.
