(* ===== verification/PyStr.v ===== *)
(** * The Python [str] operations the handlers call

    Strings are Rocq's byte strings; the operations are the ones
    [allowed_file], [process_file] and the aggregator apply to file names:
    [c in s] for a one-character [c], [s.rsplit(c, 1)], [s.lower()] (on
    ASCII letters: the file names the server keeps have been through
    werkzeug's [secure_filename], which keeps only ASCII), and
    [s.endswith(suffix)].  Each comes with the lemma that says what it
    computes. *)

From Stdlib Require Import Ascii.
From S2P Require Import Prelude.

#[local] Open Scope list_scope.
#[local] Open Scope string_scope.

Module PyStr.

(** [c in s] *)
Fixpoint py_in (c : ascii) (s : string) : bool :=
  match s with
  | EmptyString => false
  | String a s' => Ascii.eqb a c || py_in c s'
  end.

(** The parts of [s] before and after the last [c], if [c] occurs. *)
Fixpoint rsplit_last (c : ascii) (s : string) : option (string * string) :=
  match s with
  | EmptyString => None
  | String a s' =>
      match rsplit_last c s' with
      | Some (pre, post) => Some (String a pre, post)
      | None => if Ascii.eqb a c then Some (EmptyString, s') else None
      end
  end.

(** [s.rsplit(c, 1)] *)
Definition py_rsplit1 (c : ascii) (s : string) : list string :=
  match rsplit_last c s with
  | Some (pre, post) => [pre; post]
  | None => [s]
  end.

(** [ch.lower()] for one byte: ASCII capitals become small letters. *)
Definition ascii_lower (a : ascii) : ascii :=
  let n := Ascii.nat_of_ascii a in
  if Nat.leb 65 n && Nat.leb n 90 then Ascii.ascii_of_nat (n + 32) else a.

(** [s.lower()] *)
Fixpoint py_lower (s : string) : string :=
  match s with
  | EmptyString => EmptyString
  | String a s' => String (ascii_lower a) (py_lower s')
  end.

(** [s.endswith(suffix)] *)
Definition py_endswith (suffix s : string) : bool :=
  bool_decide (String.length suffix ≤ String.length s)%nat &&
  String.eqb (String.substring (String.length s - String.length suffix)
                (String.length suffix) s) suffix.

(** ** Lemmas *)

Lemma py_in_spec c s : py_in c s = true ↔ ∃ pre post, s = pre ++ String c post.
Proof.
  induction s as [|a s IH]; simpl.
  - split; [discriminate|]. intros ([|] & ? & ?); discriminate.
  - rewrite orb_true_iff, IH, Ascii.eqb_eq. split.
    + intros [->|(pre & post & ->)]; [by exists "", s|by exists (String a pre), post].
    + intros ([|b pre] & post & Heq); simpl in Heq; injection Heq as -> ->;
        [left|right]; eauto.
Qed.

Lemma py_in_app c p q : py_in c (p ++ String c q) = true.
Proof. apply py_in_spec. eauto. Qed.

Lemma rsplit_last_None c s : rsplit_last c s = None ↔ py_in c s = false.
Proof.
  induction s as [|a s IH]; simpl; [done|].
  destruct (rsplit_last c s) as [[pre post]|].
  - split; [discriminate|]. intros H. apply orb_false_iff in H as [_ H].
    apply IH in H. discriminate.
  - destruct (Ascii.eqb a c); simpl; [split; discriminate|]. by rewrite <- IH.
Qed.

(** The split is at the last occurrence of [c]. *)
Lemma rsplit_last_Some c s pre post :
  rsplit_last c s = Some (pre, post) ↔ s = pre ++ String c post ∧ py_in c post = false.
Proof.
  revert pre post; induction s as [|a s IH]; intros pre post; simpl.
  - split; [discriminate|]. intros [Heq _]. by destruct pre.
  - destruct (rsplit_last c s) as [[p q]|] eqn:E.
    + pose proof (proj1 (IH p q) eq_refl) as [Hs Hq]. split.
      * intros [= <- <-]. subst s. done.
      * intros [Heq Hpost]. destruct pre as [|b pre]; simpl in Heq;
          injection Heq as -> Heq.
        -- exfalso. subst. rewrite py_in_app in Hpost. discriminate.
        -- pose proof (proj2 (IH pre post) (conj Heq Hpost)) as E'.
           by injection E' as -> ->.
    + apply rsplit_last_None in E. split.
      * destruct (Ascii.eqb a c) eqn:Hac; [|discriminate].
        apply Ascii.eqb_eq in Hac as ->. intros [= <- <-]. done.
      * intros [Heq Hpost]. destruct pre as [|b pre]; simpl in Heq;
          injection Heq as -> Heq; subst s.
        -- by rewrite Ascii.eqb_refl.
        -- by rewrite py_in_app in E.
Qed.

Lemma py_lower_length s : String.length (py_lower s) = String.length s.
Proof. induction s; simpl; auto. Qed.

Lemma string_length_app p q :
  String.length (p ++ q) = (String.length p + String.length q)%nat.
Proof. induction p; simpl; auto. Qed.

Lemma substring_app_l p q n m :
  String.substring (String.length p + n) m (p ++ q) = String.substring n m q.
Proof. induction p; simpl; auto. Qed.

Lemma substring_all q : String.substring 0 (String.length q) q = q.
Proof. induction q; simpl; f_equal; auto. Qed.

Lemma string_split_at s n :
  (n ≤ String.length s)%nat →
  s = String.substring 0 n s ++ String.substring n (String.length s - n) s.
Proof.
  revert n; induction s as [|a s IH]; intros [|n] Hn; simpl in *; [done|lia| |].
  - by rewrite substring_all.
  - transitivity (String a (String.substring 0 n s ++ String.substring n (String.length s - n) s));
      [f_equal; apply IH; lia|reflexivity].
Qed.

(** [s.endswith(suffix)] holds exactly when [s] is some string followed
    by [suffix]. *)
Lemma py_endswith_spec suffix s :
  py_endswith suffix s = true ↔ ∃ pre, s = pre ++ suffix.
Proof.
  unfold py_endswith. rewrite andb_true_iff, bool_decide_eq_true, String.eqb_eq. split.
  - intros [Hle Hsub]. exists (String.substring 0 (String.length s - String.length suffix) s).
    rewrite (string_split_at s (String.length s - String.length suffix)) at 1 by lia.
    f_equal. replace (String.length s - (String.length s - String.length suffix))%nat
      with (String.length suffix) by lia. exact Hsub.
  - intros [pre ->]. rewrite string_length_app. split; [lia|].
    replace (String.length pre + String.length suffix - String.length suffix)%nat
      with (String.length pre + 0)%nat by lia.
    by rewrite substring_app_l, substring_all.
Qed.

(** Whether [pre ++ s'] ends with a suffix no longer than [s'] depends on
    [s'] alone. *)
Lemma py_endswith_app suffix pre s' :
  (String.length suffix ≤ String.length s')%nat →
  py_endswith suffix (pre ++ s') = py_endswith suffix s'.
Proof.
  intros Hle. unfold py_endswith. rewrite string_length_app.
  rewrite !bool_decide_true by lia. simpl.
  replace (String.length pre + String.length s' - String.length suffix)%nat
    with (String.length pre + (String.length s' - String.length suffix))%nat by lia.
  by rewrite substring_app_l.
Qed.

Lemma py_endswith_length suffix s :
  py_endswith suffix s = true → (String.length suffix ≤ String.length s)%nat.
Proof. intros (pre & ->)%py_endswith_spec. rewrite string_length_app. lia. Qed.

Lemma py_endswith_nonempty suffix s : py_endswith suffix s = true → suffix ≠ "" → s ≠ "".
Proof.
  intros H Hs ->. apply py_endswith_length in H. destruct suffix; [done|]. simpl in H. lia.
Qed.

End PyStr.
