(* ===== verification/Werkzeug.v ===== *)
(** * werkzeug's [secure_filename] (called on line 30 of src/app.py)

    The library function, as werkzeug writes it:
<<
    filename = unicodedata.normalize("NFKD", filename)
    filename = filename.encode("ascii", "ignore").decode("ascii")
    for sep in os.sep, os.path.altsep:
        if sep:
            filename = filename.replace(sep, " ")
    filename = str(_filename_ascii_strip_re.sub("", "_".join(filename.split()))).strip("._")
>>
    with [_filename_ascii_strip_re = re.compile(r"[^A-Za-z0-9_.-]")], on a
    POSIX host ([os.sep = "/"], no [altsep], no Windows device names).

    Names are UTF-8 bytes.  [secure_filename] is the function from the
    second line on, applied to the NFKD form; [secure_filename_nfkd nfkd]
    is the whole function for a normalisation [nfkd], which is not modelled
    (Unicode's decomposition table): a theorem about a particular name
    states as hypotheses what it needs of [nfkd] there.  Encoding to ASCII
    with ["ignore"] drops every byte of a non-ASCII character, so it is the
    removal of the bytes from 128 up.

    The theorems: the result is made of the characters [A-Za-z0-9_.-]
    only, and neither begins nor ends with [.] or [_], so joined to
    [uploads/] it names a file directly in that folder; an ASCII letter in
    the name means one in the result, so a name with an extension
    [allowed_file] accepts never comes out empty (NFKD keeps ASCII
    letters, so these hold of the whole function for every name); and a
    name whose part before [.xml] normalises to no ASCII character comes
    out as ["xml"]. *)

From Stdlib Require Import Ascii.
From S2P Require Import Prelude PyStr.
Import PyStr.

#[local] Open Scope list_scope.
#[local] Open Scope string_scope.

Module Werkzeug.

(** [.encode("ascii", "ignore").decode("ascii")] *)
Fixpoint ascii_only (s : string) : string :=
  match s with
  | EmptyString => EmptyString
  | String c s' =>
      if Nat.ltb (nat_of_ascii c) 128 then String c (ascii_only s') else ascii_only s'
  end.

(** [.replace(os.sep, " ")] *)
Fixpoint replace_sep (s : string) : string :=
  match s with
  | EmptyString => EmptyString
  | String c s' => String (if Ascii.eqb c "/"%char then " "%char else c) (replace_sep s')
  end.

(** Python's ASCII whitespace: [\t\n\x0b\x0c\r], [\x1c]-[\x1f] and space. *)
Definition is_space (c : ascii) : bool :=
  let n := nat_of_ascii c in
  (Nat.leb 9 n && Nat.leb n 13) || (Nat.leb 28 n && Nat.leb n 32).

(** The characters up to the first space, and the words after them. *)
Fixpoint split_aux (s : string) : string * list string :=
  match s with
  | EmptyString => (EmptyString, [])
  | String c s' =>
      let '(w, ws) := split_aux s' in
      if is_space c then (EmptyString, if String.eqb w "" then ws else w :: ws)
      else (String c w, ws)
  end.

(** [s.split()]: the maximal runs of non-space characters. *)
Definition py_split (s : string) : list string :=
  let '(w, ws) := split_aux s in if String.eqb w "" then ws else w :: ws.

(** [sep.join(ws)] *)
Fixpoint py_join (sep : string) (ws : list string) : string :=
  match ws with
  | [] => EmptyString
  | [w] => w
  | w :: ws' => w ++ sep ++ py_join sep ws'
  end.

(** The characters [_filename_ascii_strip_re] keeps. *)
Definition is_safe (c : ascii) : bool :=
  let n := nat_of_ascii c in
  (Nat.leb 65 n && Nat.leb n 90) || (Nat.leb 97 n && Nat.leb n 122) ||
  (Nat.leb 48 n && Nat.leb n 57) || Ascii.eqb c "_"%char || Ascii.eqb c "."%char ||
  Ascii.eqb c "-"%char.

(** [_filename_ascii_strip_re.sub("", s)] *)
Fixpoint keep_safe (s : string) : string :=
  match s with
  | EmptyString => EmptyString
  | String c s' => if is_safe c then String c (keep_safe s') else keep_safe s'
  end.

Definition is_dot_or_underscore (c : ascii) : bool :=
  Ascii.eqb c "."%char || Ascii.eqb c "_"%char.

(** [s.lstrip("._")] *)
Fixpoint lstrip (s : string) : string :=
  match s with
  | EmptyString => EmptyString
  | String c s' => if is_dot_or_underscore c then lstrip s' else s
  end.

(** [s.rstrip("._")] *)
Fixpoint rstrip (s : string) : string :=
  match s with
  | EmptyString => EmptyString
  | String c s' =>
      match rstrip s' with
      | EmptyString => if is_dot_or_underscore c then EmptyString else String c EmptyString
      | r => String c r
      end
  end.

(** [s.strip("._")] *)
Definition strip (s : string) : string := rstrip (lstrip s).

(** What follows the normalisation, on the bytes of the NFKD form. *)
Definition secure_filename (filename : string) : string :=
  strip (keep_safe (py_join "_" (py_split (replace_sep (ascii_only filename))))).

(** The whole function, given the normalisation [nfkd]: Unicode's NFKD
    table is not modelled, so theorems about a particular name take as
    hypotheses what they need of its normal form. *)
Definition secure_filename_nfkd (nfkd : string → string) (filename : string) : string :=
  secure_filename (nfkd filename).

(** ** Lemmas *)

(** Every character of a string satisfies [p]. *)
Fixpoint all_chars (p : ascii → bool) (s : string) : bool :=
  match s with
  | EmptyString => true
  | String c s' => p c && all_chars p s'
  end.

Lemma keep_safe_safe s : all_chars is_safe (keep_safe s) = true.
Proof. induction s as [|c s IH]; simpl; [done|]. by destruct (is_safe c) eqn:E; simpl; rewrite ?E. Qed.

Lemma lstrip_all p s : all_chars p s = true → all_chars p (lstrip s) = true.
Proof. induction s as [|c s IH]; simpl; [done|]. intros [? ?]%andb_true_iff. case_match; auto. simpl. by apply andb_true_iff. Qed.

Lemma rstrip_all p s : all_chars p s = true → all_chars p (rstrip s) = true.
Proof.
  induction s as [|c s IH]; simpl; [done|]. intros [Hc Hs]%andb_true_iff.
  specialize (IH Hs). destruct (rstrip s) as [|c' r].
  - destruct (is_dot_or_underscore c); simpl; [done|]. by rewrite Hc.
  - simpl in *. by rewrite Hc, IH.
Qed.

(** The first character [lstrip] leaves is neither [.] nor [_]. *)
Lemma lstrip_head s c s' : lstrip s = String c s' → is_dot_or_underscore c = false.
Proof.
  induction s as [|d s IH]; simpl; [discriminate|].
  destruct (is_dot_or_underscore d) eqn:E; [done|]. by intros [= <- _].
Qed.

Lemma rstrip_head s c s' : rstrip s = String c s' → ∃ t, s = String c t.
Proof.
  destruct s as [|d s]; simpl; [discriminate|].
  destruct (rstrip s); [case_match; [discriminate|]|]; intros [= <- _]; eauto.
Qed.

(** The last character [rstrip] leaves is neither [.] nor [_]. *)
Lemma rstrip_last s pre c : rstrip s = pre ++ String c "" → is_dot_or_underscore c = false.
Proof.
  revert pre; induction s as [|d s IH]; intros pre; simpl; [by destruct pre|].
  destruct (rstrip s) as [|d' r] eqn:E.
  - destruct (is_dot_or_underscore d) eqn:Hd; [by destruct pre|].
    destruct pre as [|? [|]]; simpl; intros [=]; subst; done.
  - destruct pre as [|e pre]; simpl; intros Heq; injection Heq as <- Heq;
      [discriminate Heq|]. by apply (IH pre).
Qed.

Lemma ascii_only_app p q : ascii_only (p ++ q) = ascii_only p ++ ascii_only q.
Proof. induction p as [|c p IH]; simpl; [done|]. by case_match; rewrite IH. Qed.

Lemma ascii_only_none p :
  all_chars (λ c, Nat.leb 128 (nat_of_ascii c)) p = true → ascii_only p = "".
Proof.
  induction p as [|c p IH]; cbn [all_chars ascii_only]; [done|].
  intros [Hc Hp]%andb_true_iff. apply Nat.leb_le in Hc. rewrite (proj2 (Nat.ltb_ge _ _) Hc). auto.
Qed.

Lemma all_chars_py_in p c s : all_chars p s = true → p c = false → py_in c s = false.
Proof.
  induction s as [|d s IH]; cbn [all_chars py_in]; [done|]. intros [Hd Hs]%andb_true_iff Hc.
  rewrite IH by done. destruct (Ascii.eqb d c) eqn:E; [|done].
  apply Ascii.eqb_eq in E as ->. congruence.
Qed.

(** What comes out is made of [A-Za-z0-9_.-] only (so it has no [/]). *)
Lemma secure_filename_chars s : all_chars is_safe (secure_filename s) = true.
Proof. apply rstrip_all, lstrip_all, keep_safe_safe. Qed.

(** What comes out neither begins ... *)
Lemma secure_filename_head s c t :
  secure_filename s = String c t → is_dot_or_underscore c = false.
Proof. intros (t' & Ht)%rstrip_head. exact (lstrip_head _ _ _ Ht). Qed.

(** ... nor ends with [.] or [_]. *)
Lemma secure_filename_last s pre c :
  secure_filename s = pre ++ String c "" → is_dot_or_underscore c = false.
Proof. apply rstrip_last. Qed.

(** A name whose part before [.xml] has no ASCII character loses all of
    it, and the dot. *)
Lemma secure_filename_nonascii_xml pre :
  all_chars (λ c, Nat.leb 128 (nat_of_ascii c)) pre = true →
  secure_filename (pre ++ ".xml") = "xml".
Proof. intros Hpre. unfold secure_filename. by rewrite ascii_only_app, ascii_only_none. Qed.

(** The same through the normalisation, for a name whose stem normalises to
    non-ASCII characters only (Han, Cyrillic or Greek letters do; a Latin
    [é] does not, as it decomposes into [e] and an accent). *)
Lemma secure_filename_nfkd_nonascii_xml nfkd pre :
  nfkd (pre ++ ".xml") = nfkd pre ++ ".xml" →
  all_chars (λ c, Nat.leb 128 (nat_of_ascii c)) (nfkd pre) = true →
  secure_filename_nfkd nfkd (pre ++ ".xml") = "xml".
Proof.
  intros Hcat Hpre. unfold secure_filename_nfkd. rewrite Hcat.
  by apply secure_filename_nonascii_xml.
Qed.

(** ** An ASCII letter survives sanitising *)

Definition is_letter (c : ascii) : bool :=
  let n := nat_of_ascii c in
  (Nat.leb 65 n && Nat.leb n 90) || (Nat.leb 97 n && Nat.leb n 122).

(** Some character of a string satisfies [p]. *)
Fixpoint any_char (p : ascii → bool) (s : string) : bool :=
  match s with
  | EmptyString => false
  | String c s' => p c || any_char p s'
  end.

Lemma any_char_app p a b : any_char p (a ++ b) = any_char p a || any_char p b.
Proof. induction a as [|c a IH]; simpl; [done|]. by rewrite IH, orb_assoc. Qed.

Lemma letter_ascii c : is_letter c = true → Nat.ltb (nat_of_ascii c) 128 = true.
Proof.
  unfold is_letter. rewrite Nat.ltb_lt. rewrite orb_true_iff, !andb_true_iff, !Nat.leb_le. lia.
Qed.

Lemma letter_not_space c : is_letter c = true → is_space c = false.
Proof.
  unfold is_letter, is_space. intros H. apply not_true_iff_false. intros H'.
  revert H H'. rewrite !orb_true_iff, !andb_true_iff, !Nat.leb_le. lia.
Qed.

Lemma letter_safe c : is_letter c = true → is_safe c = true.
Proof. unfold is_safe. fold (is_letter c). intros ->. done. Qed.

Lemma letter_not_sep c : is_letter c = true → Ascii.eqb c "/"%char = false.
Proof.
  intros H. destruct (Ascii.eqb_spec c "/"%char) as [->|]; [|done]. discriminate H.
Qed.

Lemma letter_not_strip c : is_letter c = true → is_dot_or_underscore c = false.
Proof.
  intros H. unfold is_dot_or_underscore.
  destruct (Ascii.eqb_spec c "."%char) as [->|]; [discriminate H|].
  destruct (Ascii.eqb_spec c "_"%char) as [->|]; [discriminate H|]. done.
Qed.

Section letters.
Local Abbreviation L := (any_char is_letter).

Lemma ascii_only_letter s : L (ascii_only s) = L s.
Proof.
  induction s as [|c s IH]; cbn [ascii_only any_char]; [done|].
  destruct (is_letter c) eqn:Hc.
  - rewrite (letter_ascii c Hc). cbn [any_char]. by rewrite Hc.
  - by destruct (Nat.ltb _ _); cbn [any_char]; rewrite ?Hc, IH.
Qed.

Lemma replace_sep_letter s : L (replace_sep s) = L s.
Proof.
  induction s as [|c s IH]; cbn [replace_sep any_char]; [done|]. rewrite IH.
  destruct (Ascii.eqb c "/"%char) eqn:E; [|done].
  apply Ascii.eqb_eq in E as ->. reflexivity.
Qed.

Lemma split_aux_letter s :
  L s = L (split_aux s).1 || existsb L (split_aux s).2.
Proof.
  induction s as [|c s IH]; [done|]. cbn [split_aux any_char].
  destruct (split_aux s) as [w ws]. cbn [fst snd] in *. rewrite IH.
  destruct (is_space c) eqn:Hs; cbn [fst snd any_char existsb].
  - assert (is_letter c = false) as ->.
    { destruct (is_letter c) eqn:Hc; [|done]. by rewrite letter_not_space in Hs. }
    by destruct (String.eqb_spec w "") as [->|]; simpl.
  - by rewrite orb_assoc.
Qed.

Lemma py_split_letter s : existsb L (py_split s) = L s.
Proof.
  unfold py_split. rewrite (split_aux_letter s). destruct (split_aux s) as [w ws].
  cbn [fst snd]. by destruct (String.eqb_spec w "") as [->|]; simpl.
Qed.

Lemma py_join_letter ws : L (py_join "_" ws) = existsb L ws.
Proof.
  induction ws as [|w [|w' ws] IH]; [done|simpl; by rewrite orb_false_r|].
  change (py_join "_" (w :: w' :: ws)) with (w ++ "_" ++ py_join "_" (w' :: ws)).
  rewrite !any_char_app, IH. done.
Qed.

Lemma keep_safe_letter s : L (keep_safe s) = L s.
Proof.
  induction s as [|c s IH]; cbn [keep_safe any_char]; [done|].
  destruct (is_safe c) eqn:Hs; cbn [any_char]; rewrite IH; [done|].
  destruct (is_letter c) eqn:Hc; [|done]. by rewrite letter_safe in Hs.
Qed.

Lemma lstrip_letter s : L (lstrip s) = L s.
Proof.
  induction s as [|c s IH]; cbn [lstrip]; [done|].
  destruct (is_dot_or_underscore c) eqn:Hd; [|done]. rewrite IH. cbn [any_char].
  destruct (is_letter c) eqn:Hc; [|done]. by rewrite letter_not_strip in Hd.
Qed.

Lemma rstrip_letter s : L (rstrip s) = L s.
Proof.
  induction s as [|c s IH]; cbn [rstrip]; [done|].
  destruct (rstrip s) as [|c' r] eqn:E; cbn [any_char] in *; rewrite <- IH; [|done].
  destruct (is_dot_or_underscore c) eqn:Hd; cbn [any_char]; [|by rewrite orb_false_r].
  destruct (is_letter c) eqn:Hc; [|done]. by rewrite letter_not_strip in Hd.
Qed.

(** A name with an ASCII letter keeps one, so it is not sanitised away. *)
Lemma secure_filename_letter s : L (secure_filename s) = L s.
Proof.
  unfold secure_filename, strip.
  by rewrite rstrip_letter, lstrip_letter, keep_safe_letter, py_join_letter, py_split_letter,
    replace_sep_letter, ascii_only_letter.
Qed.
Lemma ascii_lower_letter c : is_letter (ascii_lower c) = true → is_letter c = true.
Proof.
  unfold ascii_lower. destruct (Nat.leb 65 _ && Nat.leb _ 90) eqn:E; [|done].
  intros _. unfold is_letter. by rewrite E.
Qed.

Lemma py_lower_letter s : L (py_lower s) = true → L s = true.
Proof.
  induction s as [|c s IH]; cbn [py_lower any_char]; [done|].
  rewrite !orb_true_iff. intros [Hc|Hs]; [left; by apply ascii_lower_letter|right; auto].
Qed.

End letters.

End Werkzeug.
