(* ===== verification/PyDict.v ===== *)
(** * Python's insertion-ordered [dict]

    The rows of [extract_all_info_from_xml] are Python dicts built by
    [record = {}] and a sequence of [record[key] = value] statements.  A
    Python dict remembers the order in which keys were first inserted, and
    pandas uses that order for the columns, so the model is an association
    list: [dict_set] replaces the value of a key in place, or appends a new
    key at the end.  A dict built this way never holds a key twice
    ([dict_wf]); it denotes a finite map ([to_map], a refinement onto
    stdpp's [gmap]), and Python's [==] on dicts ignores the order
    ([dict_equiv], a setoid equivalence that [dict_get] and [dict_set]
    respect). *)

From S2P Require Import Prelude.

Module PyDict.

Section dict.
Context {K V : Type} `{EqDecision K}.

Definition dict_empty : list (K * V) := [].

(** [d[k] = v] *)
Fixpoint dict_set (k : K) (v : V) (d : list (K * V)) : list (K * V) :=
  match d with
  | [] => [(k, v)]
  | (k', v') :: d' =>
      if decide (k = k') then (k', v) :: d' else (k', v') :: dict_set k v d'
  end.

(** [d.get(k)]: [None] when the key is absent. *)
Fixpoint dict_get (k : K) (d : list (K * V)) : option V :=
  match d with
  | [] => None
  | (k', v') :: d' => if decide (k = k') then Some v' else dict_get k d'
  end.

(** [list(d.keys())] *)
Definition dict_keys (d : list (K * V)) : list K := map fst d.

Definition dict_wf (d : list (K * V)) : Prop := NoDup (dict_keys d).

(** Python's [d1 == d2]: the same keys with the same values, in any order. *)
Definition dict_equiv (d1 d2 : list (K * V)) : Prop :=
  ∀ k, dict_get k d1 = dict_get k d2.

Lemma dict_get_set_eq k v d : dict_get k (dict_set k v d) = Some v.
Proof.
  induction d as [|[k' v'] d IH]; simpl; [by rewrite decide_True|].
  case_decide; simpl; by repeat case_decide.
Qed.

Lemma dict_get_set_ne k k' v d :
  k ≠ k' → dict_get k' (dict_set k v d) = dict_get k' d.
Proof.
  intros Hne. induction d as [|[k0 v0] d IH]; simpl.
  - by rewrite decide_False.
  - case_decide; subst; simpl; repeat case_decide; congruence.
Qed.

Lemma dict_get_set k k' v d :
  dict_get k' (dict_set k v d) = if decide (k = k') then Some v else dict_get k' d.
Proof.
  case_decide; subst; [apply dict_get_set_eq | by apply dict_get_set_ne].
Qed.

Lemma dict_get_Some_keys k v d : dict_get k d = Some v → k ∈ dict_keys d.
Proof.
  induction d as [|[k' v'] d IH]; simpl; [done|].
  case_decide; subst; [left|]; set_solver.
Qed.

Lemma dict_get_None_keys k d : dict_get k d = None ↔ k ∉ dict_keys d.
Proof.
  induction d as [|[k' v'] d IH]; simpl; [set_solver|].
  case_decide; subst; [split; [done|set_solver]|].
  rewrite IH. set_solver.
Qed.

(** The keys after [d[k] = v]: unchanged when [k] is present, [k] appended
    at the end otherwise. *)
Lemma dict_keys_set k v d :
  dict_keys (dict_set k v d) =
    if decide (k ∈ dict_keys d) then dict_keys d else dict_keys d ++ [k].
Proof.
  induction d as [|[k' v'] d IH]; simpl; [done|].
  destruct (decide (k = k')) as [->|Hne]; simpl.
  - by rewrite decide_True by set_solver.
  - rewrite IH. destruct (decide (k ∈ dict_keys d)).
    + by rewrite decide_True by set_solver.
    + by rewrite decide_False by set_solver.
Qed.

Lemma dict_keys_set_elem k k' v d :
  k' ∈ dict_keys (dict_set k v d) ↔ k' = k ∨ k' ∈ dict_keys d.
Proof. rewrite dict_keys_set. case_decide; set_solver. Qed.

Lemma dict_keys_set_new k v d :
  k ∉ dict_keys d → dict_keys (dict_set k v d) = dict_keys d ++ [k].
Proof. intros Hk. rewrite dict_keys_set. by case_decide. Qed.

Lemma dict_keys_set_old k v d :
  k ∈ dict_keys d → dict_keys (dict_set k v d) = dict_keys d.
Proof. intros Hk. rewrite dict_keys_set. by case_decide. Qed.

Lemma dict_get_is_Some_keys k d : is_Some (dict_get k d) ↔ k ∈ dict_keys d.
Proof.
  rewrite <- not_eq_None_Some, dict_get_None_keys.
  destruct (decide (k ∈ dict_keys d)); tauto.
Qed.

(** [d[k] = v] only ever appends keys, and only [k]. *)
Lemma dict_keys_set_ext k v d :
  ∃ ks, dict_keys (dict_set k v d) = dict_keys d ++ ks ∧ ∀ k', k' ∈ ks → k' = k.
Proof.
  rewrite dict_keys_set. case_decide.
  - exists []. split; [by rewrite app_nil_r | set_solver].
  - exists [k]. set_solver.
Qed.

Lemma dict_set_wf k v d : dict_wf d → dict_wf (dict_set k v d).
Proof.
  unfold dict_wf. rewrite dict_keys_set. case_decide; [done|].
  intros Hnd. apply NoDup_app. split; [done|]. split; [set_solver|].
  apply NoDup_singleton.
Qed.

Lemma dict_empty_wf : dict_wf dict_empty.
Proof. constructor. Qed.

(** ** Python's [==] on dicts *)

#[export] Instance dict_equiv_equivalence : Equivalence dict_equiv.
Proof.
  split; [by intros d k | by intros d1 d2 H k | intros d1 d2 d3 H1 H2 k].
  by rewrite H1, H2.
Qed.

#[export] Instance dict_get_proper :
  Proper (eq ==> dict_equiv ==> eq) dict_get.
Proof. intros k ? <- d1 d2 Hd. apply Hd. Qed.

#[export] Instance dict_set_proper :
  Proper (eq ==> eq ==> dict_equiv ==> dict_equiv) dict_set.
Proof.
  intros k ? <- v ? <- d1 d2 Hd k'. rewrite !dict_get_set.
  case_decide; [done|apply Hd].
Qed.

(** Setting two different keys commutes up to Python's [==] (not up to
    [=]: the key order differs). *)
Lemma dict_set_commute k1 k2 v1 v2 d :
  k1 ≠ k2 →
  dict_equiv (dict_set k1 v1 (dict_set k2 v2 d)) (dict_set k2 v2 (dict_set k1 v1 d)).
Proof. intros Hne k. rewrite !dict_get_set. repeat case_decide; congruence. Qed.

Lemma dict_set_set k v1 v2 d :
  dict_set k v2 (dict_set k v1 d) = dict_set k v2 d.
Proof.
  induction d as [|[k' v'] d IH]; simpl.
  - by rewrite decide_True.
  - case_decide; simpl; [by rewrite decide_True|].
    rewrite decide_False by done. by f_equal.
Qed.
End dict.

Section refinement.
Context {K V : Type} `{Countable K}.

(** The finite map a dict denotes (the first binding of a key wins, as in
    [dict_get]). *)
Definition to_map (d : list (K * V)) : gmap K V := list_to_map d.

Lemma to_map_lookup d k : to_map d !! k = dict_get k d.
Proof.
  induction d as [|[k' v'] d IH]; simpl; [apply lookup_empty|].
  unfold to_map in *. simpl. rewrite lookup_insert.
  case_decide; subst; repeat case_decide; congruence.
Qed.

(** [d[k] = v] refines the map insertion [<[k:=v]>]. *)
Lemma to_map_set k v d : to_map (dict_set k v d) = <[k:=v]> (to_map d).
Proof.
  apply map_eq. intros k'.
  rewrite to_map_lookup, dict_get_set, lookup_insert, to_map_lookup.
  done.
Qed.

Lemma dict_equiv_to_map d1 d2 : dict_equiv d1 d2 ↔ to_map d1 = to_map d2.
Proof.
  split.
  - intros Hd. apply map_eq. intros k. by rewrite !to_map_lookup.
  - intros Hm k. by rewrite <- !to_map_lookup, Hm.
Qed.
End refinement.

End PyDict.

#[export] Hint Rewrite @PyDict.dict_get_set_eq : pyrt.
#[export] Hint Resolve PyDict.dict_set_wf PyDict.dict_empty_wf : pyrt.
