(* ===== verification/Xml.v ===== *)
(** * The part of [xml.etree.ElementTree] that [src/app.py] calls

    An [Element] has a tag, an optional [.text] ([None] for an element with
    no character data, as ElementTree returns) and the list of its children
    in document order.  With a plain tag as argument, [find] returns the
    first direct child with that tag and [findall] all of them, in order;
    neither looks deeper than the children.  [find_text] is the idiom the
    extractor repeats on lines 70-75 and 89-93 of [src/app.py]:
    [x.find(t).text if x.find(t) is not None else None]; [text_of] is
    [x.find(t).text] without the guard (lines 80-81), which raises when the
    child is missing. *)

From S2P Require Import Prelude.

#[local] Open Scope string_scope.
#[local] Open Scope py_scope.
#[local] Set Warnings "-register-all".

Module Xml.

Inductive Element := mkElement {
  tag : string;
  text : option string;
  children : list Element
}.

(** ElementPath's search for a plain tag: the first element of [cs] with
    tag [t]. *)
Fixpoint find_in (t : string) (cs : list Element) : option Element :=
  match cs with
  | [] => None
  | c :: cs' => if decide (tag c = t) then Some c else find_in t cs'
  end.

(** [e.find(t)] *)
Definition find (e : Element) (t : string) : option Element :=
  find_in t (children e).

(** [e.findall(t)] *)
Definition findall (e : Element) (t : string) : list Element :=
  filter (λ c, tag c = t) (children e).

(** [e.find(t).text if e.find(t) is not None else None] *)
Definition find_text (e : Element) (t : string) : option string :=
  match find e t with Some c => text c | None => None end.

(** [e.find(t).text]: raises when [e] has no child [t]. *)
Definition text_of (e : Element) (t : string) : PyResult (option string) :=
  c ← (find e t)·"text"; Ok (text c).

(** Builders for concrete trees: an element with text and no children, and
    one with children and no text. *)
Definition leaf (t s : string) : Element := mkElement t (Some s) [].
Definition node (t : string) (cs : list Element) : Element := mkElement t None cs.

(** ** Lemmas *)

(** [find] is the first result of [findall]. *)
Lemma find_head_findall e t : find e t = head (findall e t).
Proof.
  unfold find, findall. induction (children e) as [|c cs IH]; simpl; [done|].
  rewrite filter_cons. case_decide; done.
Qed.

Lemma findall_spec e t c : c ∈ findall e t ↔ c ∈ children e ∧ tag c = t.
Proof. unfold findall. rewrite list_elem_of_filter. tauto. Qed.

Lemma find_Some e t c : find e t = Some c → c ∈ children e ∧ tag c = t.
Proof.
  rewrite find_head_findall, <- findall_spec.
  destruct (findall e t); simpl; [done|]. intros [= ->]. left.
Qed.

Lemma find_None e t : find e t = None ↔ findall e t = [].
Proof. rewrite find_head_findall. by destruct (findall e t). Qed.

Lemma find_text_Some e t s :
  find_text e t = Some s ↔ ∃ c, find e t = Some c ∧ text c = Some s.
Proof. unfold find_text. destruct (find e t); naive_solver. Qed.

Lemma find_text_None_find e t : find e t = None → find_text e t = None.
Proof. unfold find_text. by intros ->. Qed.

Lemma text_of_Some e t c : find e t = Some c → text_of e t = Ok (text c).
Proof. unfold text_of. by intros ->. Qed.

Lemma text_of_None e t : find e t = None → text_of e t = Raise (AttributeError "text").
Proof. unfold text_of. by intros ->. Qed.

Lemma text_of_Ok e t v : text_of e t = Ok v ↔ ∃ c, find e t = Some c ∧ v = text c.
Proof. unfold text_of. destruct (find e t); simpl; naive_solver. Qed.

(** When the child exists, the guarded and the unguarded reads agree. *)
Lemma text_of_find_text e t c :
  find e t = Some c → text_of e t = Ok (find_text e t).
Proof. unfold text_of, find_text. by intros ->. Qed.

End Xml.
