(* ===== verification/Extract.v ===== *)
(** * The record extractor: [extract_all_info_from_xml] (src/app.py, 63-95)

    One definition per step of the Python function, in the order the code
    runs them.  A row is a Python dict from the column names (the
    Vietnamese strings of the source, byte for byte) to [option string]
    ([None] is Python's [None]).  The function raises where Python raises:
    [AttributeError "find"] when [TTChung], [NDHDon], [NBan] or [TToan] is
    missing (the code calls [.find] on [None]), [AttributeError "text"] when
    a [TTin] entry lacks [TTruong] or [DLieu], [TypeError] when [KHHDon] or
    [SHDon] has no text ([None + str]), and [ParseError] when the file is not
    XML.

    Module [Extract] holds the operations and their theorems; Module
    [InvoiceSpec] states the abstract record of the spec (nine optional
    fields or a structure error) and the refinement theorem relating the
    two. *)

From S2P Require Import Prelude PyDict Xml.
Import PyDict Xml.

#[local] Open Scope string_scope.
#[local] Open Scope list_scope.
#[local] Open Scope py_scope.

Module Extract.

(** ** The column names *)

(** The key of line 70. *)
Definition K_LOAI : string := "Loại Hóa Đơn".

(** The key of line 73. *)
Definition K_SO : string := "Số hoá đơn/Tờ khai Hải quan điện tử".

(** The key of line 74. *)
Definition K_NGAY : string := "Ngày hóa đơn/ Tờ khai Hải quan điện tử".

(** The key of lines 75 and 90. *)
Definition K_MST : string := "Mã số thuế".

(** The key of line 83. *)
Definition K_STK : string := "Số tài khoản".

(** The key of line 85. *)
Definition K_NH : string := "Tại Ngân hàng".

(** The key of line 89. *)
Definition K_NTH : string := "Người thụ hưởng".

(** The key of line 92. *)
Definition K_GT : string := "Giá trị theo hoá đơn/Tờ khai Hải quan điện tử".

(** The key of line 93. *)
Definition K_STGN : string := "Số tiền giải ngân".

(** A row: [record = {}] followed by [record[k] = v] statements. *)
Abbreviation Row := (list (string * option string)).

(** ** Operations *)

(** Python's [a + b] where each operand is a [str] or [None]. *)
Definition py_str_add (a b : option string) : PyResult string :=
  match a, b with
  | Some x, Some y => Ok (String.append x y)
  | _, _ => Raise TypeError
  end.

(** One iteration of [for ttin in ttkhac.findall('TTin')] (lines 80-85). *)
Definition ttin_step (record : Row) (ttin : Element) : PyResult Row :=
  ttruong ← text_of ttin "TTruong";
  dlieu ← text_of ttin "DLieu";
  let record :=
    if decide (ttruong = Some "BankAccount") then dict_set K_STK dlieu record
    else record in
  let record :=
    if decide (ttruong = Some "BankName") then dict_set K_NH dlieu record
    else record in
  Ok record.

(** Lines 77-85: the optional [TTKhac] side list. *)
Definition ttkhac_loop (ttchung : Element) (record : Row) : PyResult Row :=
  match find ttchung "TTKhac" with
  | Some ttkhac => py_for ttin_step (findall ttkhac "TTin") record
  | None => Ok record
  end.

(** Lines 68-93: the row of one [DLHDon] element. *)
Definition extract_hdon (hdon : Element) : PyResult Row :=
  let record := dict_empty in
  ttchung ← (find hdon "TTChung")·"find";
  let record := dict_set K_LOAI (find_text ttchung "THDon") record in
  let KHHDon := find_text ttchung "KHHDon" in
  let SHDon := find_text ttchung "SHDon" in
  so ← py_str_add KHHDon SHDon;
  let record := dict_set K_SO (Some so) record in
  let record := dict_set K_NGAY (find_text ttchung "NLap") record in
  let record := dict_set K_MST (find_text ttchung "MSTTCGP") record in
  record ← ttkhac_loop ttchung record;
  ndh_don ← (find hdon "NDHDon")·"find";
  nban ← (find ndh_don "NBan")·"find";
  let record := dict_set K_NTH (find_text nban "Ten") record in
  let record := dict_set K_MST (find_text nban "MST") record in
  ttoan ← (find ndh_don "TToan")·"find";
  let record := dict_set K_GT (find_text ttoan "TgTTTBSo") record in
  let record := dict_set K_STGN (find_text ttoan "TgTTTBSo") record in
  Ok record.

(** Lines 63-95.  [doc] is what [ET.parse(file_path)] gives: the root
    element, or [None] when the file is not well-formed XML. *)
Definition extract_all_info_from_xml (doc : option Element) : PyResult (list Row) :=
  match doc with
  | None => Raise ParseError
  | Some root =>
      py_for (λ data hdon, record ← extract_hdon hdon; Ok (data ++ [record])%list)
        (findall root "DLHDon") []
  end.

(** ** Sample invoices (the values of section 8 of the spec) *)

Definition sample_ttin (name value : string) : Element :=
  node "TTin" [leaf "TTruong" name; leaf "DLieu" value].

Definition sample_ttchung : Element :=
  node "TTChung"
    [leaf "THDon" "1"; leaf "KHHDon" "AA/20E"; leaf "SHDon" "00000123";
     leaf "NLap" "2024-01-15"; leaf "MSTTCGP" "9999999999";
     node "TTKhac" [sample_ttin "BankAccount" "0123456789";
                    sample_ttin "BankName" "Example Bank";
                    sample_ttin "Other" "ignored"]].

Definition sample_ndhdon : Element :=
  node "NDHDon"
    [node "NBan" [leaf "Ten" "Seller Co"; leaf "MST" "0101234567"];
     node "TToan" [leaf "TgTTTBSo" "1000000"]].

Definition sample_hdon : Element := node "DLHDon" [sample_ttchung; sample_ndhdon].

(** Two invoices under the root, and one nested deeper, which is not read. *)
Definition sample_doc : Element :=
  node "HDon" [sample_hdon; node "DSHDon" [sample_hdon]; sample_hdon].

(** Invoices the code rejects: no [TTChung]; no [SHDon]; no [NDHDon]; a
    [TTin] entry without [DLieu]. *)
Definition sample_no_ttchung : Element := node "DLHDon" [sample_ndhdon].

Definition sample_no_shdon_ttchung : Element := node "TTChung" [leaf "KHHDon" "AA/20E"].

Definition sample_no_shdon : Element :=
  node "DLHDon" [sample_no_shdon_ttchung; sample_ndhdon].

Definition sample_no_ndhdon : Element := node "DLHDon" [sample_ttchung].

Definition sample_bad_ttkhac : Element :=
  node "TTKhac" [sample_ttin "BankAccount" "1"; node "TTin" [leaf "TTruong" "BankName"]].

Definition sample_bad_ttchung : Element :=
  node "TTChung" [leaf "KHHDon" "A"; leaf "SHDon" "1"; sample_bad_ttkhac].

Definition sample_bad_ttin : Element := node "DLHDon" [sample_bad_ttchung; sample_ndhdon].

(** ** Lemmas *)

Ltac unfold_keys :=
  unfold K_LOAI, K_SO, K_NGAY, K_MST, K_STK, K_NH, K_NTH, K_GT, K_STGN.
Ltac unfold_keys_in H :=
  unfold K_LOAI, K_SO, K_NGAY, K_MST, K_STK, K_NH, K_NTH, K_GT, K_STGN in H.

(** The nine column names are pairwise different (line 70's key is even
    spelled with combining accents, lines 73 and 92 with precomposed ones). *)
Lemma keys_NoDup :
  NoDup [K_LOAI; K_SO; K_NGAY; K_MST; K_STK; K_NH; K_NTH; K_GT; K_STGN].
Proof. apply (bool_decide_unpack _). vm_compute. reflexivity. Qed.

(** Rewrite [dict_get k (dict_set k' v d)] for two column names. *)
Ltac row_get :=
  repeat first
    [ rewrite dict_get_set_eq
    | rewrite dict_get_set_ne by (unfold_keys; discriminate) ].

(** The bank fields and their keys (lines 82-85). *)
Definition bank_fields : list (string * string) :=
  [("BankAccount", K_STK); ("BankName", K_NH)].

Lemma bank_fields_cases name key :
  (name, key) ∈ bank_fields →
  (name = "BankAccount" ∧ key = K_STK) ∨ (name = "BankName" ∧ key = K_NH).
Proof.
  unfold bank_fields. rewrite !elem_of_cons, elem_of_nil. naive_solver.
Qed.

Lemma ttin_step_Ok r t r' :
  ttin_step r t = Ok r' ↔
    ∃ c1 c2, find t "TTruong" = Some c1 ∧ find t "DLieu" = Some c2 ∧
      r' = (let r := if decide (text c1 = Some "BankAccount")
                     then dict_set K_STK (text c2) r else r in
            if decide (text c1 = Some "BankName")
            then dict_set K_NH (text c2) r else r).
Proof.
  unfold ttin_step. split.
  - intros H. py_inv H. py_inv H. injection H as <-.
    apply text_of_Ok in E as (c1 & ? & ->), E0 as (c2 & ? & ->). eauto.
  - intros (c1 & c2 & E1 & E2 & ->).
    by rewrite (text_of_Some _ _ _ E1), (text_of_Some _ _ _ E2).
Qed.

(** One iteration leaves every key but the two bank keys alone. *)
Lemma ttin_step_other r t r' k :
  ttin_step r t = Ok r' → k ≠ K_STK → k ≠ K_NH → dict_get k r' = dict_get k r.
Proof.
  intros (c1 & c2 & _ & _ & ->)%ttin_step_Ok Hk1 Hk2. cbn zeta.
  do 2 case_decide; rewrite ?dict_get_set_ne; congruence.
Qed.

(** One iteration sets a bank key to the entry's [DLieu] exactly when the
    entry's [TTruong] names that field. *)
Lemma ttin_step_bank r t r' name key :
  (name, key) ∈ bank_fields → ttin_step r t = Ok r' →
  dict_get key r' =
    if decide (find_text t "TTruong" = Some name)
    then Some (find_text t "DLieu") else dict_get key r.
Proof.
  intros Hnk (c1 & c2 & E1 & E2 & ->)%ttin_step_Ok.
  unfold find_text. rewrite E1, E2. cbn zeta.
  destruct (bank_fields_cases _ _ Hnk) as [[-> ->]|[-> ->]];
    do 2 case_decide; simplify_eq; row_get; done.
Qed.

(** The value the last [TTin] entry named [name] carries, if any. *)
Fixpoint last_dlieu (name : string) (ttins : list Element) : option (option string) :=
  match ttins with
  | [] => None
  | t :: ts =>
      match last_dlieu name ts with
      | Some v => Some v
      | None =>
          if decide (find_text t "TTruong" = Some name)
          then Some (find_text t "DLieu") else None
      end
  end.

Lemma ttins_bank name key ttins r r' :
  (name, key) ∈ bank_fields → py_for ttin_step ttins r = Ok r' →
  dict_get key r' =
    match last_dlieu name ttins with Some v => Some v | None => dict_get key r end.
Proof.
  intros Hnk. revert r; induction ttins as [|t ts IH]; intros r H; simpl in H.
  - by injection H as <-.
  - py_inv H. rewrite (IH _ H). simpl.
    destruct (last_dlieu name ts); [done|].
    rewrite (ttin_step_bank _ _ _ _ _ Hnk E). by case_decide.
Qed.

Lemma ttins_other ttins r r' k :
  py_for ttin_step ttins r = Ok r' → k ≠ K_STK → k ≠ K_NH →
  dict_get k r' = dict_get k r.
Proof.
  intros H Hk1 Hk2.
  apply (py_for_invariant _ (λ s, dict_get k s = dict_get k r) _ _ _ ) in H;
    [done| |done].
  intros s0 t s1 _ Hs0 Hs. rewrite <- Hs0. by eapply ttin_step_other.
Qed.

(** The bank value the [TTKhac] list of a [TTChung] element gives. *)
Definition bank_value (name : string) (ttchung : Element) : option (option string) :=
  match find ttchung "TTKhac" with
  | Some ttkhac => last_dlieu name (findall ttkhac "TTin")
  | None => None
  end.

Lemma ttkhac_loop_bank name key ttchung r r' :
  (name, key) ∈ bank_fields → ttkhac_loop ttchung r = Ok r' →
  dict_get key r' =
    match bank_value name ttchung with Some v => Some v | None => dict_get key r end.
Proof.
  unfold ttkhac_loop, bank_value. intros Hnk.
  destruct (find ttchung "TTKhac"); [by apply ttins_bank|by intros [= <-]].
Qed.

Lemma ttkhac_loop_other ttchung r r' k :
  ttkhac_loop ttchung r = Ok r' → k ≠ K_STK → k ≠ K_NH →
  dict_get k r' = dict_get k r.
Proof.
  unfold ttkhac_loop. destruct (find ttchung "TTKhac").
  - apply ttins_other.
  - by intros [= <-].
Qed.

(** The row of lines 68-75, once [TTChung] is found and the invoice number
    [so] computed. *)
Definition head_row (ttchung : Element) (so : string) : Row :=
  dict_set K_MST (find_text ttchung "MSTTCGP")
    (dict_set K_NGAY (find_text ttchung "NLap")
      (dict_set K_SO (Some so)
        (dict_set K_LOAI (find_text ttchung "THDon") dict_empty))).

(** What lines 89-93 add to the row [r1] the [TTKhac] loop returned. *)
Definition tail_row (nban ttoan : Element) (r1 : Row) : Row :=
  dict_set K_STGN (find_text ttoan "TgTTTBSo")
    (dict_set K_GT (find_text ttoan "TgTTTBSo")
      (dict_set K_MST (find_text nban "MST")
        (dict_set K_NTH (find_text nban "Ten") r1))).

Lemma py_str_add_Ok a b s :
  py_str_add a b = Ok s ↔ ∃ x y, a = Some x ∧ b = Some y ∧ s = String.append x y.
Proof. destruct a, b; simpl; naive_solver. Qed.

Lemma py_str_add_Raise a b e :
  py_str_add a b = Raise e ↔ e = TypeError ∧ (a = None ∨ b = None).
Proof. destruct a, b; simpl; naive_solver. Qed.

(** The successful runs of [extract_hdon], step by step. *)
Lemma extract_hdon_Ok hdon r :
  extract_hdon hdon = Ok r ↔
  ∃ ttchung so r1 ndh_don nban ttoan,
    find hdon "TTChung" = Some ttchung ∧
    py_str_add (find_text ttchung "KHHDon") (find_text ttchung "SHDon") = Ok so ∧
    ttkhac_loop ttchung (head_row ttchung so) = Ok r1 ∧
    find hdon "NDHDon" = Some ndh_don ∧ find ndh_don "NBan" = Some nban ∧
    find ndh_don "TToan" = Some ttoan ∧ r = tail_row nban ttoan r1.
Proof.
  unfold extract_hdon. split.
  - intros H. do 6 py_inv H. injection H as <-.
    eexists _, _, _, _, _, _. split_and!; eauto.
  - intros (tt & so & r1 & n & nb & tto & -> & Hso & Hl & Hn & Hnb & Hto & ->).
    cbn [mbind py_bind deref]. rewrite Hso. cbn [mbind py_bind].
    unfold head_row in Hl. rewrite Hl, Hn. cbn [mbind py_bind deref].
    by rewrite Hnb, Hto.
Qed.

Lemma head_row_keys ttchung so :
  dict_keys (head_row ttchung so) = [K_LOAI; K_SO; K_NGAY; K_MST].
Proof. reflexivity. Qed.

(** Decide a closed proposition about column names by computation. *)
Ltac keys_decide := apply (bool_decide_unpack _); vm_compute; reflexivity.

Lemma ttkhac_loop_keys ttchung r r' :
  ttkhac_loop ttchung r = Ok r' →
  ∃ ks, dict_keys r' = dict_keys r ++ ks ∧ ∀ k, k ∈ ks → k = K_STK ∨ k = K_NH.
Proof.
  unfold ttkhac_loop. destruct (find ttchung "TTKhac") as [ttkhac|];
    [|intros [= <-]; exists []; split; [by rewrite app_nil_r|set_solver]].
  intros H.
  apply (py_for_invariant _ (λ s, ∃ ks, dict_keys s = dict_keys r ++ ks ∧
           ∀ k, k ∈ ks → k = K_STK ∨ k = K_NH)) in H;
    [done| |exists []; split; [by rewrite app_nil_r|set_solver]].
  intros s0 t s1 _ (ks & Hks & Hin) (c1 & c2 & _ & _ & ->)%ttin_step_Ok. cbn zeta.
  do 2 case_decide;
    repeat match goal with
    | |- context [dict_keys (dict_set ?k ?v ?d)] =>
        let ks' := fresh "ks" in
        destruct (dict_keys_set_ext k v d) as (ks' & -> & ?)
    end;
    rewrite Hks, <- ?app_assoc; eexists; (split; [reflexivity|]);
    intros k; rewrite ?elem_of_app; naive_solver.
Qed.

Lemma ttkhac_loop_wf ttchung r r' :
  ttkhac_loop ttchung r = Ok r' → dict_wf r → dict_wf r'.
Proof.
  unfold ttkhac_loop. destruct (find ttchung "TTKhac"); [|by intros [= <-]].
  intros H Hwf. apply (py_for_invariant _ dict_wf) in H; [done| |done].
  intros s0 t s1 _ ? (c1 & c2 & _ & _ & ->)%ttin_step_Ok. cbn zeta.
  repeat case_decide; auto with pyrt.
Qed.

(** *** Properties of one row *)

(** C2: the invoice number column is the plain concatenation of the texts of
    [KHHDon] and [SHDon], in that order, with no separator; a row exists only
    when both texts exist. *)
Theorem invoice_number_concat hdon r :
  extract_hdon hdon = Ok r →
  ∃ ttchung x y, find hdon "TTChung" = Some ttchung ∧
    find_text ttchung "KHHDon" = Some x ∧ find_text ttchung "SHDon" = Some y ∧
    dict_get K_SO r = Some (Some (String.append x y)).
Proof.
  intros (tt & so & r1 & ? & ? & ? & ? & (x & y & ? & ? & ->)%py_str_add_Ok
          & Hl & _ & _ & _ & ->)%extract_hdon_Ok.
  exists tt, x, y. split_and!; [done..|].
  unfold tail_row. row_get.
  rewrite (ttkhac_loop_other _ _ _ _ Hl) by (unfold_keys; discriminate).
  by unfold head_row; row_get.
Qed.

(** C3: the tax code column holds the seller's [NBan/MST] text: it
    overwrites [TTChung/MSTTCGP] whatever either holds, even when the
    seller has no [MST] (the column is then [None]). *)
Theorem seller_tax_code_wins hdon r :
  extract_hdon hdon = Ok r →
  ∃ ndh_don nban, find hdon "NDHDon" = Some ndh_don ∧
    find ndh_don "NBan" = Some nban ∧ dict_get K_MST r = Some (find_text nban "MST").
Proof.
  intros (? & ? & ? & nd & nb & ? & _ & _ & _ & ? & ? & _ & ->)%extract_hdon_Ok.
  exists nd, nb. split_and!; [done..|]. unfold tail_row. by row_get.
Qed.

(** C4: the settlement value and the disbursed amount are both present and
    both the text of [NDHDon/TToan/TgTTTBSo]. *)
Theorem settlement_equals_disbursed hdon r :
  extract_hdon hdon = Ok r →
  ∃ ndh_don ttoan, find hdon "NDHDon" = Some ndh_don ∧
    find ndh_don "TToan" = Some ttoan ∧
    dict_get K_GT r = Some (find_text ttoan "TgTTTBSo") ∧
    dict_get K_STGN r = Some (find_text ttoan "TgTTTBSo").
Proof.
  intros (? & ? & ? & nd & ? & tto & _ & _ & _ & ? & _ & ? & ->)%extract_hdon_Ok.
  exists nd, tto. split_and!; [done..| |]; unfold tail_row; by row_get.
Qed.

(** The bank columns of a row are what the [TTKhac] list says. *)
Lemma row_bank_get hdon r name key :
  (name, key) ∈ bank_fields → extract_hdon hdon = Ok r →
  ∃ ttchung, find hdon "TTChung" = Some ttchung ∧
    dict_get key r = bank_value name ttchung.
Proof.
  intros Hnk (tt & so & r1 & ? & ? & ? & ? & _ & Hl & _ & _ & _ & ->)%extract_hdon_Ok.
  exists tt. split; [done|].
  destruct (bank_fields_cases _ _ Hnk) as [[-> ->]|[-> ->]];
    unfold tail_row; row_get; rewrite (ttkhac_loop_bank _ _ _ _ _ Hnk Hl);
    by destruct (bank_value _ tt).
Qed.

(** A membership goal [k ∈ dict_keys (dict_set .. (dict_set .. d))] between
    column names: split it into equalities and discharge the false ones. *)
Ltac key_absurd :=
  match goal with
  | H : ?a = ?b |- _ => unfold_keys_in H; discriminate H
  end.

Ltac keys_elem :=
  rewrite ?dict_keys_set_elem, ?elem_of_app, ?elem_of_cons, ?elem_of_nil;
  intuition (try key_absurd; auto).

(** The last three columns are neither header nor bank columns. *)
Lemma head_bank_not_tail k ks :
  (∀ x, x ∈ ks → x = K_STK ∨ x = K_NH) → k ∈ [K_NTH; K_GT; K_STGN] →
  k ∉ [K_LOAI; K_SO; K_NGAY; K_MST] ++ ks.
Proof.
  intros Hin Hk [Hk'|Hk']%elem_of_app.
  - rewrite !elem_of_cons, elem_of_nil in Hk.
    destruct Hk as [-> | [-> | [-> | [] ] ] ]; revert Hk'; keys_decide.
  - destruct (Hin _ Hk') as [-> | ->]; revert Hk; keys_decide.
Qed.

Lemma tail_row_keys nban ttoan r1 :
  K_MST ∈ dict_keys r1 → K_NTH ∉ dict_keys r1 → K_GT ∉ dict_keys r1 →
  K_STGN ∉ dict_keys r1 →
  dict_keys (tail_row nban ttoan r1) = dict_keys r1 ++ [K_NTH; K_GT; K_STGN].
Proof.
  intros H1 H2 H3 H4. unfold tail_row.
  rewrite dict_keys_set_new, dict_keys_set_new, dict_keys_set_old,
    dict_keys_set_new by keys_elem.
  by rewrite <- !app_assoc.
Qed.

(** C6: a row is a well-formed dict whose columns are, in this order, the
    four header columns, the bank columns the [TTKhac] list named (each at
    most once, in the order they first appear there), then the beneficiary
    and the two money columns.  A bank column is present exactly when some
    [TTin] entry names it: the record does not always have the same shape. *)
Theorem row_keys hdon r :
  extract_hdon hdon = Ok r →
  dict_wf r ∧ ∃ ttchung ks, find hdon "TTChung" = Some ttchung ∧
    dict_keys r = [K_LOAI; K_SO; K_NGAY; K_MST] ++ ks ++ [K_NTH; K_GT; K_STGN] ∧
    (∀ k, k ∈ ks → k = K_STK ∨ k = K_NH) ∧
    (K_STK ∈ ks ↔ is_Some (bank_value "BankAccount" ttchung)) ∧
    (K_NH ∈ ks ↔ is_Some (bank_value "BankName" ttchung)).
Proof.
  intros H. pose proof H as Hr.
  apply extract_hdon_Ok in H as (tt & so & r1 & nd & nb & tto & Htt & _ & Hl & _ & _ & _ & ->).
  destruct (ttkhac_loop_keys _ _ _ Hl) as (ks & Hks & Hin).
  rewrite head_row_keys in Hks.
  assert (Hk : dict_keys (tail_row nb tto r1) =
                 [K_LOAI; K_SO; K_NGAY; K_MST] ++ ks ++ [K_NTH; K_GT; K_STGN]).
  { rewrite tail_row_keys; rewrite Hks.
    - symmetry. apply app_assoc.
    - keys_elem.
    - apply head_bank_not_tail; [done|keys_decide].
    - apply head_bank_not_tail; [done|keys_decide].
    - apply head_bank_not_tail; [done|keys_decide]. }
  split.
  - unfold tail_row. repeat apply dict_set_wf.
    apply (ttkhac_loop_wf _ _ _ Hl). unfold head_row. auto with pyrt.
  - exists tt, ks. split_and!; [done|done|done| |].
    + destruct (row_bank_get _ _ "BankAccount" K_STK ltac:(keys_decide) Hr)
        as (tt' & Htt' & Hget).
      rewrite Htt in Htt'; injection Htt' as <-.
      rewrite <- Hget, dict_get_is_Some_keys, Hk. keys_elem.
    + destruct (row_bank_get _ _ "BankName" K_NH ltac:(keys_decide) Hr)
        as (tt' & Htt' & Hget).
      rewrite Htt in Htt'; injection Htt' as <-.
      rewrite <- Hget, dict_get_is_Some_keys, Hk. keys_elem.
Qed.

(** C5: the bank columns come only from the [TTKhac] side list: each holds
    the [DLieu] of the last [TTin] entry whose [TTruong] is ["BankAccount"]
    (resp. ["BankName"]); with no such entry, or no [TTKhac] at all, the key
    is absent from the row. *)
Theorem bank_fields_from_ttkhac hdon r :
  extract_hdon hdon = Ok r →
  ∃ ttchung, find hdon "TTChung" = Some ttchung ∧
    dict_get K_STK r = bank_value "BankAccount" ttchung ∧
    dict_get K_NH r = bank_value "BankName" ttchung.
Proof.
  intros Hr.
  destruct (row_bank_get _ _ "BankAccount" K_STK ltac:(keys_decide) Hr)
    as (tt & Htt & H1).
  destruct (row_bank_get _ _ "BankName" K_NH ltac:(keys_decide) Hr)
    as (tt' & Htt' & H2).
  rewrite Htt in Htt'. injection Htt' as <-. eauto.
Qed.

(** *** The whole document *)

(** The loop of lines 66-94 is a map of [extract_hdon] over the root's
    [DLHDon] children. *)
Lemma extract_all_info_from_xml_map root :
  extract_all_info_from_xml (Some root) = py_mapM extract_hdon (findall root "DLHDon").
Proof.
  unfold extract_all_info_from_xml.
  rewrite (py_for_extend extract_hdon (λ r, [r])).
  destruct (py_mapM _ _) as [rows|]; [|done]. cbn [mbind py_bind app]. f_equal.
  induction rows as [|r rows IH]; [done|]. by rewrite bind_cons, IH.
Qed.

(** C1: a parsed document gives one row per [DLHDon] child of the root, in
    document order, each the row of that element (elements elsewhere in the
    tree are not searched). *)
Theorem one_row_per_hdon root rows :
  extract_all_info_from_xml (Some root) = Ok rows →
  Forall2 (λ hdon r, extract_hdon hdon = Ok r) (findall root "DLHDon") rows.
Proof. rewrite extract_all_info_from_xml_map. apply py_mapM_Ok. Qed.

(** The document fails with the error of its first failing [DLHDon]. *)
Lemma extract_all_info_from_xml_Raise root e :
  extract_all_info_from_xml (Some root) = Raise e ↔
    ∃ pre hdon post rows, findall root "DLHDon" = pre ++ hdon :: post ∧
      Forall2 (λ h r, extract_hdon h = Ok r) pre rows ∧ extract_hdon hdon = Raise e.
Proof. rewrite extract_all_info_from_xml_map. apply py_mapM_Raise. Qed.

(** Every row of a document is the row of one of its invoices. *)
Lemma extract_all_info_from_xml_rows doc rows r :
  extract_all_info_from_xml doc = Ok rows → r ∈ rows → ∃ hdon, extract_hdon hdon = Ok r.
Proof.
  destruct doc as [root|]; [|discriminate].
  rewrite extract_all_info_from_xml_map. intros Hrows%py_mapM_Ok Hr.
  destruct (Forall2_elem_r _ _ _ _ Hrows Hr) as (hdon & _ & ?). eauto.
Qed.

(** Both money columns of a row hold the same value. *)
Lemma row_money_equal hdon r :
  extract_hdon hdon = Ok r → dict_get K_GT r = dict_get K_STGN r.
Proof.
  intros (? & ? & ? & ? & ? & tto & _ & _ & _ & _ & _ & _ & ->)%extract_hdon_Ok.
  unfold tail_row. by row_get.
Qed.

(** *** Errors *)

(** C7: an invoice without [TTChung] raises [AttributeError] on [.find]
    (line 70), not a typed structure error naming the subtree. *)
Theorem missing_ttchung_raises hdon :
  find hdon "TTChung" = None → extract_hdon hdon = Raise (AttributeError "find").
Proof. unfold extract_hdon. by intros ->. Qed.

(** C8: when [KHHDon] or [SHDon] has no text, line 73 evaluates
    [None + str] (or [str + None]) and raises [TypeError]: the invoice number
    is never a degraded value. *)
Theorem missing_number_part_raises hdon ttchung :
  find hdon "TTChung" = Some ttchung →
  find_text ttchung "KHHDon" = None ∨ find_text ttchung "SHDon" = None →
  extract_hdon hdon = Raise TypeError.
Proof.
  unfold extract_hdon. intros -> Hn. cbn [mbind py_bind deref].
  destruct (py_str_add _ _) eqn:E.
  - apply py_str_add_Ok in E as (? & ? & ? & ? & _). naive_solver.
  - by apply py_str_add_Raise in E as [-> _].
Qed.

(** What a [TTin] entry needs for lines 80-81 not to raise. *)
Definition ttin_complete (t : Element) : Prop :=
  is_Some (find t "TTruong") ∧ is_Some (find t "DLieu").

(** What a [DLHDon] element needs for lines 68-93 not to raise. *)
Definition hdon_complete (hdon : Element) : Prop :=
  ∃ ttchung ndh_don, find hdon "TTChung" = Some ttchung ∧
    is_Some (find_text ttchung "KHHDon") ∧ is_Some (find_text ttchung "SHDon") ∧
    (∀ ttkhac, find ttchung "TTKhac" = Some ttkhac →
       Forall ttin_complete (findall ttkhac "TTin")) ∧
    find hdon "NDHDon" = Some ndh_don ∧ is_Some (find ndh_don "NBan") ∧
    is_Some (find ndh_don "TToan").

#[export] Instance ttin_complete_dec t : Decision (ttin_complete t).
Proof. unfold ttin_complete. apply _. Defined.

Lemma ttin_step_succeeds r t : (∃ r', ttin_step r t = Ok r') ↔ ttin_complete t.
Proof.
  unfold ttin_complete. split.
  - intros [r' (c1 & c2 & -> & -> & _)%ttin_step_Ok]. eauto.
  - intros [[c1 ?] [c2 ?]]. eexists. apply ttin_step_Ok. eauto 6.
Qed.

Lemma ttin_step_Raise r t e :
  ttin_step r t = Raise e → e = AttributeError "text" ∧ ¬ ttin_complete t.
Proof.
  intros H. split.
  - unfold ttin_step, text_of in H.
    destruct (find t "TTruong"), (find t "DLieu"); simpl in H; congruence.
  - intros [r' Hr']%(ttin_step_succeeds r). congruence.
Qed.

Lemma ttin_step_incomplete r t :
  ¬ ttin_complete t → ttin_step r t = Raise (AttributeError "text").
Proof.
  intros Ht. destruct (ttin_step r t) eqn:E.
  - exfalso. apply Ht, (ttin_step_succeeds r). eauto.
  - by apply ttin_step_Raise in E as [-> _].
Qed.

Lemma ttins_total ttins r :
  Forall ttin_complete ttins → ∃ r', py_for ttin_step ttins r = Ok r'.
Proof.
  intros Hall. apply py_for_total. intros s0 t Ht.
  apply ttin_step_succeeds. by eapply Forall_forall.
Qed.

Lemma ttkhac_loop_succeeds ttchung r :
  (∃ r', ttkhac_loop ttchung r = Ok r') ↔
    ∀ ttkhac, find ttchung "TTKhac" = Some ttkhac →
      Forall ttin_complete (findall ttkhac "TTin").
Proof.
  unfold ttkhac_loop. destruct (find ttchung "TTKhac") as [ttkhac|];
    [|split; [done|eauto]].
  split.
  - intros [r' H] ? [= <-]. revert r H.
    induction (findall ttkhac "TTin") as [|t ts IH]; intros r H; [done|].
    simpl in H. py_inv H. constructor; [apply (ttin_step_succeeds r); eauto|eauto].
  - intros Hall. apply ttins_total. by apply Hall.
Qed.

Lemma ttkhac_loop_Raise ttchung r e :
  ttkhac_loop ttchung r = Raise e → e = AttributeError "text".
Proof.
  unfold ttkhac_loop. destruct (find ttchung "TTKhac") as [ttkhac|]; [|done].
  revert r. induction (findall ttkhac "TTin") as [|t ts IH]; intros r H; [done|].
  simpl in H. destruct (ttin_step r t) eqn:E; simpl in H; [by eapply IH|].
  injection H as <-. by apply ttin_step_Raise in E as [-> _].
Qed.

(** C9: [extract_hdon] returns a row exactly when [TTChung] exists with
    texts for [KHHDon] and [SHDon], every [TTin] entry of its [TTKhac] has a
    [TTruong] and a [DLieu] child, and [NDHDon] exists with [NBan] and
    [TToan]; every other leaf may be missing. *)
Theorem extract_hdon_succeeds hdon :
  (∃ r, extract_hdon hdon = Ok r) ↔ hdon_complete hdon.
Proof.
  split.
  - intros [r (tt & so & r1 & nd & nb & tto & Htt & Hso & Hl & Hnd & Hnb & Htto & _)
      %extract_hdon_Ok].
    apply py_str_add_Ok in Hso as (x & y & Hx & Hy & _).
    exists tt, nd. split_and!; eauto. apply (ttkhac_loop_succeeds _ (head_row tt so)).
    eauto.
  - intros (tt & nd & Htt & [x Hx] & [y Hy] & Hk & Hnd & [nb Hnb] & [tto Htto]).
    destruct (proj2 (ttkhac_loop_succeeds tt (head_row tt (String.append x y))) Hk)
      as [r1 Hl].
    eexists. apply extract_hdon_Ok. do 6 eexists.
    split_and!; [done| |done..]. apply py_str_add_Ok. eauto.
Qed.

(** C10: the only exceptions one invoice raises are [AttributeError] on
    [.find] (a missing [TTChung], [NDHDon], [NBan] or [TToan]),
    [AttributeError] on [.text] (a [TTin] entry without [TTruong] or
    [DLieu]) and [TypeError] (line 73). *)
Theorem extract_hdon_errors hdon e :
  extract_hdon hdon = Raise e →
  e = AttributeError "find" ∨ e = AttributeError "text" ∨ e = TypeError.
Proof.
  unfold extract_hdon. intros H.
  destruct (find hdon "TTChung") as [tt|]; cbn [mbind py_bind deref] in H;
    [|injection H as <-; auto].
  destruct (py_str_add _ _) eqn:Hs; cbn [mbind py_bind] in H;
    [|apply py_str_add_Raise in Hs as [-> _]; injection H as <-; auto].
  destruct (ttkhac_loop _ _) eqn:Hl; cbn [mbind py_bind] in H;
    [|apply ttkhac_loop_Raise in Hl; injection H as <-; subst; auto].
  repeat (destruct (find _ _); cbn [mbind py_bind deref] in H);
    try discriminate; injection H as <-; auto.
Qed.

(** C11: an invoice whose [TTChung] part is complete but which has no
    [NDHDon] raises the same [AttributeError "find"] as one without
    [TTChung] (C7): the code gives no way to tell which subtree is missing. *)
Theorem missing_ndhdon_raises hdon ttchung :
  find hdon "TTChung" = Some ttchung →
  is_Some (find_text ttchung "KHHDon") → is_Some (find_text ttchung "SHDon") →
  (∀ ttkhac, find ttchung "TTKhac" = Some ttkhac →
     Forall ttin_complete (findall ttkhac "TTin")) →
  find hdon "NDHDon" = None →
  extract_hdon hdon = Raise (AttributeError "find").
Proof.
  intros Htt [x Hx] [y Hy] Hk Hnd. unfold extract_hdon. rewrite Htt.
  cbn [mbind py_bind deref]. rewrite Hx, Hy. cbn [mbind py_bind py_str_add].
  destruct (ttkhac_loop _ _) as [r1|e] eqn:Hl.
  - cbn [mbind py_bind]. by rewrite Hnd.
  - exfalso.
    destruct (proj2 (ttkhac_loop_succeeds ttchung (head_row ttchung (String.append x y))) Hk)
      as [? Hl'].
    unfold head_row in Hl'. congruence.
Qed.

(** C12: a [TTin] entry without a [TTruong] or a [DLieu] child makes the
    whole invoice raise [AttributeError "text"] (lines 80-81 read [.text] of
    [None]), although the spec says a missing leaf only gives a null field. *)
Theorem incomplete_ttin_raises hdon ttchung ttkhac pre t post :
  find hdon "TTChung" = Some ttchung →
  is_Some (find_text ttchung "KHHDon") → is_Some (find_text ttchung "SHDon") →
  find ttchung "TTKhac" = Some ttkhac →
  findall ttkhac "TTin" = pre ++ t :: post →
  Forall ttin_complete pre → ¬ ttin_complete t →
  extract_hdon hdon = Raise (AttributeError "text").
Proof.
  intros Htt [x Hx] [y Hy] Hk Hall Hpre Ht. unfold extract_hdon. rewrite Htt.
  cbn [mbind py_bind deref]. rewrite Hx, Hy. cbn [mbind py_bind py_str_add].
  unfold ttkhac_loop. rewrite Hk, Hall, py_for_app.
  match goal with |- context [py_for ttin_step pre ?r0] =>
    destruct (ttins_total pre r0 Hpre) as [r1 ->] end.
  cbn [mbind py_bind py_for]. by rewrite ttin_step_incomplete.
Qed.

(** ** Witnesses: the theorems at the sample invoices *)

Lemma one_row_per_hdon_witness :
  ∃ rows, extract_all_info_from_xml (Some sample_doc) = Ok rows ∧ length rows = 2 ∧
    Forall2 (λ hdon r, extract_hdon hdon = Ok r) (findall sample_doc "DLHDon") rows.
Proof.
  eexists. split; [reflexivity|]. split; [reflexivity|].
  apply one_row_per_hdon. reflexivity.
Defined.

Lemma invoice_number_concat_witness :
  ∃ r, extract_hdon sample_hdon = Ok r ∧
    dict_get K_SO r = Some (Some "AA/20E00000123") ∧
    ∃ ttchung x y, find sample_hdon "TTChung" = Some ttchung ∧
      find_text ttchung "KHHDon" = Some x ∧ find_text ttchung "SHDon" = Some y ∧
      dict_get K_SO r = Some (Some (String.append x y)).
Proof.
  eexists. split; [reflexivity|]. split; [reflexivity|].
  apply invoice_number_concat. reflexivity.
Defined.

Lemma seller_tax_code_wins_witness :
  ∃ r, extract_hdon sample_hdon = Ok r ∧ dict_get K_MST r = Some (Some "0101234567") ∧
    ∃ ndh_don nban, find sample_hdon "NDHDon" = Some ndh_don ∧
      find ndh_don "NBan" = Some nban ∧ dict_get K_MST r = Some (find_text nban "MST").
Proof.
  eexists. split; [reflexivity|]. split; [reflexivity|].
  apply seller_tax_code_wins. reflexivity.
Defined.

Lemma settlement_equals_disbursed_witness :
  ∃ r, extract_hdon sample_hdon = Ok r ∧
    ∃ ndh_don ttoan, find sample_hdon "NDHDon" = Some ndh_don ∧
      find ndh_don "TToan" = Some ttoan ∧
      dict_get K_GT r = Some (find_text ttoan "TgTTTBSo") ∧
      dict_get K_STGN r = Some (find_text ttoan "TgTTTBSo").
Proof.
  eexists. split; [reflexivity|]. apply settlement_equals_disbursed. reflexivity.
Defined.

Lemma bank_fields_from_ttkhac_witness :
  ∃ r, extract_hdon sample_hdon = Ok r ∧
    dict_get K_STK r = Some (Some "0123456789") ∧
    dict_get K_NH r = Some (Some "Example Bank") ∧
    ∃ ttchung, find sample_hdon "TTChung" = Some ttchung ∧
      dict_get K_STK r = bank_value "BankAccount" ttchung ∧
      dict_get K_NH r = bank_value "BankName" ttchung.
Proof.
  eexists. split; [reflexivity|]. split; [reflexivity|]. split; [reflexivity|].
  apply bank_fields_from_ttkhac. reflexivity.
Defined.

Lemma row_keys_witness :
  ∃ r, extract_hdon sample_hdon = Ok r ∧
    (dict_wf r ∧ ∃ ttchung ks, find sample_hdon "TTChung" = Some ttchung ∧
      dict_keys r = [K_LOAI; K_SO; K_NGAY; K_MST] ++ ks ++ [K_NTH; K_GT; K_STGN] ∧
      (∀ k, k ∈ ks → k = K_STK ∨ k = K_NH) ∧
      (K_STK ∈ ks ↔ is_Some (bank_value "BankAccount" ttchung)) ∧
      (K_NH ∈ ks ↔ is_Some (bank_value "BankName" ttchung))).
Proof.
  eexists. split; [reflexivity|]. apply row_keys. reflexivity.
Defined.

Lemma missing_ttchung_raises_witness :
  find sample_no_ttchung "TTChung" = None ∧
  extract_hdon sample_no_ttchung = Raise (AttributeError "find").
Proof. split; [reflexivity|]. apply missing_ttchung_raises. reflexivity. Defined.

Lemma missing_number_part_raises_witness :
  find_text sample_no_shdon_ttchung "SHDon" = None ∧
  extract_hdon sample_no_shdon = Raise TypeError.
Proof.
  split; [reflexivity|].
  apply (missing_number_part_raises _ sample_no_shdon_ttchung); [reflexivity|].
  right. reflexivity.
Defined.

Lemma extract_hdon_errors_witness :
  extract_hdon sample_bad_ttin = Raise (AttributeError "text") ∧
  (AttributeError "text" = AttributeError "find" ∨
   AttributeError "text" = AttributeError "text" ∨ AttributeError "text" = TypeError).
Proof.
  split; [reflexivity|]. apply (extract_hdon_errors sample_bad_ttin). reflexivity.
Defined.

Lemma missing_ndhdon_raises_witness :
  find sample_no_ndhdon "NDHDon" = None ∧
  extract_hdon sample_no_ndhdon = Raise (AttributeError "find").
Proof.
  split; [reflexivity|].
  apply (missing_ndhdon_raises _ sample_ttchung); try reflexivity;
    [eexists; reflexivity | eexists; reflexivity |].
  intros ttkhac [= <-]. keys_decide.
Defined.

Lemma incomplete_ttin_raises_witness :
  ¬ ttin_complete (node "TTin" [leaf "TTruong" "BankName"]) ∧
  extract_hdon sample_bad_ttin = Raise (AttributeError "text").
Proof.
  split; [keys_decide|].
  apply (incomplete_ttin_raises _ sample_bad_ttchung sample_bad_ttkhac
           [sample_ttin "BankAccount" "1"] (node "TTin" [leaf "TTruong" "BankName"]) []);
    try reflexivity; try keys_decide; eexists; reflexivity.
Defined.

End Extract.

(** * The spec's record and the refinement theorem *)

Module InvoiceSpec.
Import Extract.

(** The nine fields of an InvoiceRecord (spec, section 3). *)
Inductive Field :=
| InvoiceType | InvoiceNumber | InvoiceDate | TaxCode | BankAccountNumber
| BankName | Beneficiary | SettlementValue | DisbursedAmount.

#[export] Instance Field_eq_dec : EqDecision Field.
Proof. solve_decision. Defined.

Record InvoiceRecord := mkInvoiceRecord {
  invoice_type : option string;
  invoice_number : option string;
  invoice_date : option string;
  tax_code : option string;
  bank_account_number : option string;
  bank_name : option string;
  beneficiary : option string;
  settlement_value : option string;
  disbursed_amount : option string
}.

Definition field_of (ir : InvoiceRecord) (f : Field) : option string :=
  match f with
  | InvoiceType => invoice_type ir
  | InvoiceNumber => invoice_number ir
  | InvoiceDate => invoice_date ir
  | TaxCode => tax_code ir
  | BankAccountNumber => bank_account_number ir
  | BankName => bank_name ir
  | Beneficiary => beneficiary ir
  | SettlementValue => settlement_value ir
  | DisbursedAmount => disbursed_amount ir
  end.

(** The spreadsheet column of each field. *)
Definition column (f : Field) : string :=
  match f with
  | InvoiceType => K_LOAI
  | InvoiceNumber => K_SO
  | InvoiceDate => K_NGAY
  | TaxCode => K_MST
  | BankAccountNumber => K_STK
  | BankName => K_NH
  | Beneficiary => K_NTH
  | SettlementValue => K_GT
  | DisbursedAmount => K_STGN
  end.

(** The outcome of extracting one invoice element (spec, sections 4.1 and 7):
    a record, or a structure error naming the missing subtree. *)
Inductive SpecResult :=
| SpecRecord (ir : InvoiceRecord)
| StructureError (subtree : string).

(** Section 4.1 of the spec: leaves may be absent (null), structural
    subtrees may not; the number is the concatenation of the series and the
    sequence number (undefined, here [None], when one is absent); the
    seller's tax code overwrites the summary one; the bank fields come from
    the side list, last entry winning; both money fields are the settlement
    total. *)
Definition spec_invoice (hdon : Element) : SpecResult :=
  match find hdon "TTChung" with
  | None => StructureError "TTChung"
  | Some g =>
      match find hdon "NDHDon" with
      | None => StructureError "NDHDon"
      | Some d =>
          match find d "NBan", find d "TToan" with
          | None, _ => StructureError "NBan"
          | _, None => StructureError "TToan"
          | Some nb, Some ttoan =>
              SpecRecord {|
                invoice_type := find_text g "THDon";
                invoice_number :=
                  match find_text g "KHHDon", find_text g "SHDon" with
                  | Some a, Some b => Some (String.append a b)
                  | _, _ => None
                  end;
                invoice_date := find_text g "NLap";
                tax_code := find_text nb "MST";
                bank_account_number := mjoin (bank_value "BankAccount" g);
                bank_name := mjoin (bank_value "BankName" g);
                beneficiary := find_text nb "Ten";
                settlement_value := find_text ttoan "TgTTTBSo";
                disbursed_amount := find_text ttoan "TgTTTBSo" |}
          end
      end
  end.

(** C13: refinement.  Whenever [extract_hdon] returns a row, the spec gives
    a record, and every field of that record is the row's column for it,
    a key the row lacks reading as null. *)
Theorem extract_hdon_refines_spec hdon r :
  extract_hdon hdon = Ok r →
  ∃ ir, spec_invoice hdon = SpecRecord ir ∧
    ∀ f, mjoin (dict_get (column f) r) = field_of ir f.
Proof.
  intros Hr. pose proof Hr as Hr'.
  apply extract_hdon_Ok in Hr as (tt & so & r1 & nd & nb & tto & Htt & Hso & Hl
    & Hnd & Hnb & Htto & ->).
  unfold spec_invoice. rewrite Htt, Hnd, Hnb, Htto.
  eexists. split; [reflexivity|].
  apply py_str_add_Ok in Hso as (x & y & Hx & Hy & ->).
  intros []; simpl; unfold tail_row; row_get; try done.
  - rewrite (ttkhac_loop_other _ _ _ _ Hl) by (unfold_keys; discriminate).
    by unfold head_row; row_get.
  - rewrite (ttkhac_loop_other _ _ _ _ Hl) by (unfold_keys; discriminate).
    unfold head_row; row_get. by rewrite Hx, Hy.
  - rewrite (ttkhac_loop_other _ _ _ _ Hl) by (unfold_keys; discriminate).
    by unfold head_row; row_get.
  - rewrite (ttkhac_loop_bank "BankAccount" K_STK _ _ _ ltac:(keys_decide) Hl).
    by destruct (bank_value _ tt).
  - rewrite (ttkhac_loop_bank "BankName" K_NH _ _ _ ltac:(keys_decide) Hl).
    by destruct (bank_value _ tt).
Qed.

Lemma extract_hdon_refines_spec_witness :
  ∃ r, extract_hdon sample_hdon = Ok r ∧
    ∃ ir, spec_invoice sample_hdon = SpecRecord ir ∧
      ∀ f, mjoin (dict_get (column f) r) = field_of ir f.
Proof.
  eexists. split; [reflexivity|]. apply extract_hdon_refines_spec. reflexivity.
Defined.

End InvoiceSpec.
