(* ===== verification/Aggregate.v ===== *)
(** * The corpus aggregator: lines 49-55 of [process_file] (src/app.py)

<<
    data = []
    for root, dirs, files in os.walk(extract_folder):
        for file in files:
            if file.endswith('.xml'):
                file_path = os.path.join(root, file)
                file_data = extract_all_info_from_xml(file_path)
                data.extend(file_data)
>>

    The walk is the list of directories [os.walk] yields, each with its
    files in listing order and what reading each file gives.  What a stored
    file is, and what [ET.parse] makes of it, is left open: the Section
    variable [parse] is [ET.parse] on the file's bytes ([None] for a file
    that is not well-formed XML), and the server instantiates it.

    The theorems: the loop equals a reference definition (extract every
    [.xml] file in walk order and concatenate), it fails fast with the
    first failing file's exception, and which files it reads (names ending
    exactly in [.xml], case-sensitively). *)

From S2P Require Import Prelude PyStr PyDict Xml Extract.
Import PyStr PyDict Xml Extract.

#[local] Open Scope string_scope.
#[local] Open Scope list_scope.

Module Aggregate.

Section aggregate.
Context {Blob : Type} (parse : Blob → option Element).

(** One directory of the walk: its path and its files with their contents. *)
Local Abbreviation WalkDir := (string * list (string * Blob))%type.

(** [file.endswith('.xml')] *)
Definition is_xml_file (file : string) : bool := py_endswith ".xml" file.

(** The inner loop, over the files of one directory. *)
Definition files_loop (data : list Row) (files : list (string * Blob)) :
    PyResult (list Row) :=
  py_for (λ data '(file, blob),
      if is_xml_file file then
        file_data ← extract_all_info_from_xml (parse blob);
        Ok (data ++ file_data)
      else Ok data) files data.

(** Lines 49-55. *)
Definition aggregate (walk : list WalkDir) : PyResult (list Row) :=
  py_for (λ data '(root, files), files_loop data files) walk [].

(** The files the loop reads, in walk order. *)
Definition xml_files (walk : list WalkDir) : list (string * Blob) :=
  filter (λ fb, is_xml_file fb.1 = true) (mjoin (map snd walk)).

(** The reference: extract every [.xml] file, concatenate. *)
Definition aggregate_ref (walk : list WalkDir) : PyResult (list Row) :=
  py_mapM (λ fb, extract_all_info_from_xml (parse fb.2)) (xml_files walk) ≫=
    λ rowss : list (list Row), Ok (mjoin rowss).

Lemma files_loop_spec data files :
  files_loop data files =
    (py_mapM (λ fb, extract_all_info_from_xml (parse fb.2))
       (filter (λ fb, is_xml_file fb.1 = true) files) ≫=
     λ rowss : list (list Row), Ok (data ++ mjoin rowss)).
Proof. apply py_for_extend_filter. by intros d [file blob]. Qed.

Lemma walk_loop_spec walk acc :
  py_for (λ data '(root, files), files_loop data files) walk acc =
    (py_mapM (λ fb, extract_all_info_from_xml (parse fb.2)) (xml_files walk) ≫=
     λ rowss : list (list Row), Ok (acc ++ mjoin rowss)).
Proof.
  unfold xml_files. revert acc.
  induction walk as [|[root files] walk IH]; intros acc; simpl.
  - by rewrite app_nil_r.
  - rewrite files_loop_spec, filter_app, py_mapM_app.
    destruct (py_mapM _ (filter _ files)) as [rowss1|e]; simpl; [|done].
    rewrite IH. destruct (py_mapM _ _); simpl; [|done].
    by rewrite join_app, app_assoc.
Qed.

(** C14: the loop of [process_file] computes the reference: the rows of
    every file whose name ends in [.xml], file after file in walk order,
    each file's rows in document order, with no merging, sorting or
    de-duplication; it raises when the reference raises. *)
Theorem aggregate_equiv walk : aggregate walk = aggregate_ref walk.
Proof.
  unfold aggregate, aggregate_ref. rewrite walk_loop_spec.
  by destruct (py_mapM _ _).
Qed.
Lemma aggregate_Ok_inv walk data :
  aggregate walk = Ok data →
  ∃ rowss, Forall2 (λ fb r, extract_all_info_from_xml (parse fb.2) = Ok r)
             (xml_files walk) rowss ∧ data = mjoin rowss.
Proof.
  unfold aggregate. rewrite walk_loop_spec.
  destruct (py_mapM _ _) as [rowss|] eqn:E; simpl; [|discriminate].
  intros [= <-]. apply py_mapM_Ok in E. eauto.
Qed.

(** Every row of a run is the row of some invoice element. *)
(** Every [.xml] file extracting makes the run succeed with their rows. *)
Lemma aggregate_intro walk rowss :
  Forall2 (λ fb r, extract_all_info_from_xml (parse fb.2) = Ok r) (xml_files walk) rowss →
  aggregate walk = Ok (mjoin rowss).
Proof.
  intros Hf%py_mapM_Ok. unfold aggregate. rewrite walk_loop_spec, Hf. done.
Qed.

Lemma aggregate_rows walk data r :
  aggregate walk = Ok data → r ∈ data → ∃ hdon, extract_hdon hdon = Ok r.
Proof.
  intros (rowss & Hf & ->)%aggregate_Ok_inv (rows & Hr & Hrows)%list_elem_of_join.
  destruct (Forall2_elem_r _ _ _ _ Hf Hrows) as (fb & _ & Hfb).
  by eapply extract_all_info_from_xml_rows.
Qed.

(** C15: the run succeeds exactly when every [.xml] file of the walk
    extracts, and its rows are theirs, concatenated in walk order. *)
Theorem aggregate_Ok walk rows :
  aggregate walk = Ok rows ↔
    ∃ rowss, Forall2 (λ fb r, extract_all_info_from_xml (parse fb.2) = Ok r)
               (xml_files walk) rowss ∧ rows = mjoin rowss.
Proof.
  rewrite aggregate_equiv. unfold aggregate_ref.
  destruct (py_mapM _ _) as [rowss|e] eqn:E; simpl.
  - apply py_mapM_Ok in E. split; [intros [= <-]; eauto|].
    intros (rowss' & H & ->). f_equal. f_equal.
    eapply Forall2_unique; [exact E|exact H|]. congruence.
  - split; [discriminate|]. intros (rowss' & H & _).
    apply py_mapM_Ok in H. congruence.
Qed.

(** C16: fail-fast.  The run raises exactly when some [.xml] file raises
    (a [ParseError] or an extraction error), and it raises that file's
    exception, the first in walk order; no partial result survives. *)
Theorem aggregate_fail_fast walk e :
  aggregate walk = Raise e ↔
    ∃ pre fb post rowss, xml_files walk = pre ++ fb :: post ∧
      Forall2 (λ fb r, extract_all_info_from_xml (parse fb.2) = Ok r) pre rowss ∧
      extract_all_info_from_xml (parse fb.2) = Raise e.
Proof.
  rewrite aggregate_equiv, <- py_mapM_Raise. unfold aggregate_ref.
  destruct (py_mapM _ _); simpl; split; intros; congruence.
Qed.

(** C17: a file whose name does not end in [.xml] (such as [a.XML]) is
    never read: removing it from the walk changes nothing. *)
Theorem aggregate_skips_other_files root files1 file blob files2 walk :
  is_xml_file file = false →
  aggregate ((root, files1 ++ (file, blob) :: files2) :: walk) =
    aggregate ((root, files1 ++ files2) :: walk).
Proof.
  intros Hf. rewrite !aggregate_equiv. unfold aggregate_ref, xml_files. simpl.
  rewrite !filter_app, filter_cons, decide_False by (simpl; congruence). done.
Qed.

End aggregate.

(** ** Witnesses *)

(** A stored file here is its parse result itself. *)
Definition parsed (b : option Element) : option Element := b.

Definition sample_one_hdon : Element := node "HDon" [sample_hdon].

Definition sample_walk : list (string * list (string * option Element)) :=
[("uploads/extracted", [("d1.xml", Some sample_doc); ("notes.txt", None)]);
 ("uploads/extracted/sub", [("d2.xml", Some sample_one_hdon); ("D3.XML", None)])].

Lemma aggregate_Ok_witness :
∃ rows, aggregate parsed sample_walk = Ok rows ∧ length rows = 3 ∧
  ∃ rowss, Forall2 (λ fb r, extract_all_info_from_xml (parsed fb.2) = Ok r)
             (xml_files sample_walk) rowss ∧ rows = mjoin rowss.
Proof.
eexists. split; [reflexivity|]. split; [reflexivity|].
apply aggregate_Ok. reflexivity.
Defined.

Lemma aggregate_fail_fast_witness :
aggregate parsed [("uploads/extracted", [("d1.xml", Some sample_doc); ("bad.xml", None);
                   ("d2.xml", Some (node "HDon" [sample_no_ttchung]))])] = Raise ParseError ∧
∃ pre fb post rowss,
  xml_files [("uploads/extracted", [("d1.xml", Some sample_doc); ("bad.xml", None);
              ("d2.xml", Some (node "HDon" [sample_no_ttchung]))])] = pre ++ fb :: post ∧
  Forall2 (λ fb r, extract_all_info_from_xml (parsed fb.2) = Ok r) pre rowss ∧
  extract_all_info_from_xml (parsed fb.2) = Raise ParseError.
Proof. split; [reflexivity|]. apply aggregate_fail_fast. reflexivity. Defined.

Lemma aggregate_skips_other_files_witness :
is_xml_file "D3.XML" = false ∧
aggregate parsed [("uploads/extracted", [("d1.xml", Some sample_doc); ("D3.XML", Some sample_doc)])] =
  aggregate parsed [("uploads/extracted", [("d1.xml", Some sample_doc)])].
Proof.
split; [reflexivity|].
apply (aggregate_skips_other_files parsed _ [("d1.xml", Some sample_doc)] _ _ []).
reflexivity.
Defined.

End Aggregate.
