(* ===== verification/Table.v ===== *)
(** * The spreadsheet: [pd.DataFrame(data)] and [df.to_excel] (src/app.py, 57-59)

    pandas builds a frame from a list of dicts with one column per key,
    in the order keys are first seen (the first dict's keys in its
    insertion order, then every key a later dict adds, at the end), and one
    row per dict; a dict without a column's key gets a missing value,
    which, like Python's [None], is written as an empty cell.
    [to_excel(index=False)] writes the column names as a header row, then
    the rows.  A cell is [option string]: [None] is the empty cell.

    The theorems: the frame's columns are exactly the keys seen, each once,
    the first record's keys first and in their order; each cell is the
    record's value, empty for a [None] value or a missing key.

    Not modelled: the [.xlsx] encoding of the sheet (openpyxl, for one,
    stores a string beginning with [=] as a formula), so nothing here says
    what a spreadsheet program reads back from the file. *)

From S2P Require Import Prelude PyDict.
Import PyDict.

Module Table.

Abbreviation Row := (list (string * option string)).

Record DataFrame := mkDataFrame {
  df_columns : list string;
  df_rows : list (list (option string))
}.

(** Add a key to the columns seen so far, unless it is there. *)
Definition add_column (cols : list string) (k : string) : list string :=
  if decide (k ∈ cols) then cols else cols ++ [k].

(** The union of the rows' keys in first-seen order. *)
Definition union_columns (rows : list Row) : list string :=
  foldl (λ cols r, foldl add_column cols (dict_keys r)) [] rows.

(** A cell: missing key and [None] value are both an empty cell. *)
Definition df_cell (r : Row) (c : string) : option string := mjoin (dict_get c r).

(** [pd.DataFrame(data)] (line 57). *)
Definition dataframe (data : list Row) : DataFrame :=
  let cols := union_columns data in
  {| df_columns := cols; df_rows := map (λ r, map (df_cell r) cols) data |}.

(** [df.to_excel(output_file, index=False)] (line 59): the sheet's rows. *)
Definition to_excel (df : DataFrame) : list (list (option string)) :=
  map Some (df_columns df) :: df_rows df.

(** ** Lemmas on the column union *)

Lemma add_columns_prefix ks cols :
  ∃ rest, foldl add_column cols ks = cols ++ rest.
Proof.
  revert cols; induction ks as [|k ks IH]; intros cols; simpl.
  - exists []. by rewrite app_nil_r.
  - destruct (IH (add_column cols k)) as [rest ->]. unfold add_column.
    case_decide; [by exists rest|]. exists (k :: rest). by rewrite <- app_assoc.
Qed.

Lemma add_columns_elem ks cols k :
  k ∈ foldl add_column cols ks ↔ k ∈ cols ∨ k ∈ ks.
Proof.
  revert cols; induction ks as [|k' ks IH]; intros cols; simpl.
  - set_solver.
  - rewrite IH. unfold add_column. case_decide; set_solver.
Qed.

Lemma add_columns_NoDup ks cols : NoDup cols → NoDup (foldl add_column cols ks).
Proof.
  revert cols; induction ks as [|k ks IH]; intros cols Hnd; simpl; [done|].
  apply IH. unfold add_column. case_decide; [done|].
  apply NoDup_app. split; [done|]. split; [set_solver|]. apply NoDup_singleton.
Qed.

(** Adding the keys of a duplicate-free list to no columns gives that list. *)
Lemma add_columns_fresh ks cols :
  NoDup (cols ++ ks) → foldl add_column cols ks = cols ++ ks.
Proof.
  revert cols; induction ks as [|k ks IH]; intros cols Hnd; simpl.
  - by rewrite app_nil_r.
  - unfold add_column. rewrite decide_False.
    + rewrite IH; [by rewrite <- app_assoc|]. by rewrite <- app_assoc.
    + apply NoDup_app in Hnd as (_ & Hd & _). intros Hk. apply (Hd k Hk). left.
Qed.

Lemma union_columns_go_elem (rows : list Row) cols k :
  k ∈ foldl (λ cols r, foldl add_column cols (dict_keys r)) cols rows ↔
    k ∈ cols ∨ ∃ r, r ∈ rows ∧ k ∈ dict_keys r.
Proof.
  revert cols; induction rows as [|r rows IH]; intros cols; simpl.
  - set_solver.
  - rewrite IH, add_columns_elem. set_solver.
Qed.

Lemma union_columns_go_NoDup (rows : list Row) cols :
  NoDup cols → NoDup (foldl (λ cols r, foldl add_column cols (dict_keys r)) cols rows).
Proof.
  revert cols; induction rows as [|r rows IH]; intros cols Hnd; simpl; [done|].
  by apply IH, add_columns_NoDup.
Qed.

Lemma union_columns_go_prefix (rows : list Row) cols :
  ∃ rest, foldl (λ cols r, foldl add_column cols (dict_keys r)) cols rows = cols ++ rest.
Proof.
  revert cols; induction rows as [|r rows IH]; intros cols; simpl.
  - exists []. by rewrite app_nil_r.
  - destruct (add_columns_prefix (dict_keys r) cols) as [rest1 ->].
    destruct (IH (cols ++ rest1)) as [rest2 ->]. exists (rest1 ++ rest2).
    by rewrite app_assoc.
Qed.

(** ** The frame *)

(** C18: the columns are the keys of the records, each once. *)
Theorem dataframe_columns data :
  NoDup (df_columns (dataframe data)) ∧
  ∀ k, k ∈ df_columns (dataframe data) ↔ ∃ r, r ∈ data ∧ k ∈ dict_keys r.
Proof.
  simpl. unfold union_columns. split.
  - apply union_columns_go_NoDup. constructor.
  - intros k. rewrite union_columns_go_elem. set_solver.
Qed.

(** C19: the first record's keys are the first columns, in its order; keys
    that only later records have come after them, so the column order of a
    sheet depends on which record first carries a key. *)
Theorem dataframe_first_columns r data :
  dict_wf r → ∃ rest, df_columns (dataframe (r :: data)) = dict_keys r ++ rest.
Proof.
  intros Hwf. simpl. unfold union_columns. simpl.
  rewrite (add_columns_fresh (dict_keys r) []) by done.
  apply union_columns_go_prefix.
Qed.

(** C20: the cell in row [i] and column [j] holds record [i]'s value for
    the column's key; it is empty when the record has [None] there or does
    not have the key at all. *)
Theorem dataframe_cell data i j r c :
  data !! i = Some r → df_columns (dataframe data) !! j = Some c →
  ∃ cell, (df_rows (dataframe data) !! i ≫= (λ row, row !! j)) = Some cell ∧
    (∀ v, dict_get c r = Some v → cell = v) ∧
    (c ∉ dict_keys r → cell = None).
Proof.
  intros Hi Hj. simpl in *. rewrite list_lookup_fmap, Hi. simpl.
  rewrite list_lookup_fmap, Hj. eexists. split; [reflexivity|]. unfold df_cell. split.
  - intros v ->. done.
  - intros Hk. by rewrite (proj2 (dict_get_None_keys c r) Hk).
Qed.

(** ** Witnesses *)

Definition sample_row_short : Row := [("a", Some "1"); ("c", None)].
Definition sample_row_long : Row := [("a", Some "2"); ("b", Some "x"); ("c", Some "3")].

Lemma dataframe_first_columns_witness :
  dict_wf sample_row_short ∧
  df_columns (dataframe [sample_row_short; sample_row_long]) = ["a"; "c"; "b"] ∧
  ∃ rest, df_columns (dataframe [sample_row_short; sample_row_long]) =
            dict_keys sample_row_short ++ rest.
Proof.
  split; [apply (bool_decide_unpack _); vm_compute; reflexivity|].
  split; [reflexivity|]. apply dataframe_first_columns.
  apply (bool_decide_unpack _). vm_compute. reflexivity.
Defined.

Lemma dataframe_cell_witness :
  [sample_row_short; sample_row_long] !! 0 = Some sample_row_short ∧
  df_columns (dataframe [sample_row_short; sample_row_long]) !! 2 = Some "b" ∧
  ∃ cell, (df_rows (dataframe [sample_row_short; sample_row_long]) !! 0 ≫=
             (λ row, row !! 2)) = Some cell ∧
    (∀ v, dict_get "b" sample_row_short = Some v → cell = v) ∧
    ("b" ∉ dict_keys sample_row_short → cell = None).
Proof.
  split; [reflexivity|]. split; [reflexivity|].
  apply dataframe_cell; reflexivity.
Defined.

End Table.
