(* ===== verification/Server.v ===== *)
(** * The web server: [allowed_file], [index], [upload_file],
    [process_file] (src/app.py, lines 9-61, 97-98)

    The server's state is the [uploads/] folder: the files saved directly in
    it ([uploads], by name) and the files under [uploads/extracted/]
    ([extracted], by path relative to that folder, the file name last).
    The folder is created once and never emptied: nothing in the code
    deletes from [uploads/extracted/].

    A handler is a function [State -> request -> State * Response].  Flask
    turns an uncaught exception into an HTTP 500 ([ServerError]); what the
    handler wrote before raising stays written.  [serve] runs a sequence of
    requests one after the other and [reachable] is the set of states a
    server reaches from [init].  Two parts of the environment are Section
    parameters: werkzeug's [secure_filename], and [os.walk]'s enumeration of
    the extracted folder ([walk]), of which the theorems only assume that it
    lists every stored file once, in some order ([walk_lists]).  The last
    theorems instantiate [secure_filename] with the model of [Werkzeug].

    Not modelled: a file and a directory of the same name (the store has
    only files), member names [zipfile] sanitises (member paths are given
    already sanitised), partial writes of a ZIP that fails half-way
    ([BadZipFile] is raised before anything is written), and concurrent
    requests (the handlers run one at a time). *)

From Stdlib Require Import Ascii.
From S2P Require Import Prelude PyStr Werkzeug PyDict Xml Extract Aggregate Table.
Import PyStr PyDict Xml Extract Aggregate Table.

#[local] Open Scope list_scope.
#[local] Open Scope string_scope.
#[local] Set Warnings "-register-all".

Module Server.

(** ** Data *)

(** What a stored file holds, as the libraries the code calls read it. *)
Inductive Blob :=
| XmlFile (root : Element)
    (** well-formed XML: [ET.parse] returns this root *)
| ZipFile (members : list (list string * Blob))
    (** a ZIP archive: its members' paths and contents, in archive order *)
| SheetFile (sheet : list (list (option string)))
    (** the workbook [to_excel] writes *)
| RawFile.
    (** anything else *)

(** [ET.parse(path).getroot()] ([None]: [ParseError]). *)
Definition parse_xml (b : Blob) : option Element :=
  match b with XmlFile root => Some root | _ => None end.

(** [zipfile.ZipFile(path)] ([None]: [BadZipFile]). *)
Definition open_zip (b : Blob) : option (list (list string * Blob)) :=
  match b with ZipFile ms => Some ms | _ => None end.

Record State := mkState {
  uploads : gmap string Blob;
  extracted : gmap (list string) Blob
}.

Definition init : State := mkState ∅ ∅.

Record FileStorage := mkFileStorage {
  fs_filename : string;
  fs_content : Blob
}.

Record Request := mkRequest {
  req_url : string;
  req_files : list (string * FileStorage)
}.

Inductive Response :=
| Redirect (url : string)
| SendFile (path : string) (content : Blob)
| Page (template : string)
| ServerError (e : PyExc).

(** [app.config['UPLOAD_FOLDER']], [app.config['ALLOWED_EXTENSIONS']] (lines 9-10). *)
Definition UPLOAD_FOLDER : string := "uploads".
Definition ALLOWED_EXTENSIONS : list string := ["zip"; "xml"].

(** [os.path.join(app.config['UPLOAD_FOLDER'], name)] *)
Definition upload_path (name : string) : string := UPLOAD_FOLDER ++ "/" ++ name.

Definition OUTPUT : string := "output.xlsx".

(** The last component of a path under [uploads/extracted/]. *)
Definition basename (p : list string) : string := default "" (last p).

(** ** Operations *)

(** Lines 15-16. *)
Definition allowed_file (filename : string) : bool :=
  py_in "."%char filename &&
  match py_rsplit1 "."%char filename !! 1 with
  | Some ext => bool_decide (py_lower ext ∈ ALLOWED_EXTENSIONS)
  | None => false
  end.

(** [zip_ref.extractall(extract_folder)]: each member written in archive
    order, a later member overwriting an earlier one of the same path. *)
Definition extractall (members : list (list string * Blob))
    (m : gmap (list string) Blob) : gmap (list string) Blob :=
  foldl (λ m pb, <[pb.1 := pb.2]> m) m members.

Section server.
Context (secure_filename : string → string).
Context (walk : gmap (list string) Blob → list (string * list (string * Blob))).

(** Lines 22-34. *)
Definition upload_file (st : State) (req : Request) : State * Response :=
  match dict_get "file" (req_files req) with
  | None => (st, Redirect (req_url req))
  | Some file =>
      if decide (fs_filename file = "") then (st, Redirect (req_url req))
      else if allowed_file (fs_filename file) then
        let filename := secure_filename (fs_filename file) in
        if decide (filename = "") then
          (st, ServerError (IsADirectoryError (upload_path filename)))
        else
          (mkState (<[filename := fs_content file]> (uploads st)) (extracted st),
           Redirect ("/process/" ++ filename))
      else (st, Redirect (req_url req))
  end.

(** Lines 38-47: the upload goes into [uploads/extracted/]. *)
Definition unpack (st : State) (filename : string) : PyResult State :=
  if py_endswith ".zip" filename then
    blob ← ok_or (uploads st !! filename) (FileNotFoundError (upload_path filename));
    members ← ok_or (open_zip blob) BadZipFile;
    Ok (mkState (uploads st) (extractall members (extracted st)))
  else
    blob ← ok_or (uploads st !! filename) (FileNotFoundError (upload_path filename));
    Ok (mkState (delete filename (uploads st)) (<[[filename] := blob]> (extracted st))).

(** Lines 36-61. *)
Definition process_file (st : State) (filename : string) : State * Response :=
  match unpack st filename with
  | Raise e => (st, ServerError e)
  | Ok st1 =>
      match aggregate parse_xml (walk (extracted st1)) with
      | Raise e => (st1, ServerError e)
      | Ok data =>
          let sheet := SheetFile (to_excel (dataframe data)) in
          (mkState (<[OUTPUT := sheet]> (uploads st1)) (extracted st1),
           SendFile (upload_path OUTPUT) sheet)
      end
  end.

(** The three routes: [/] (lines 18-20), [/upload] and [/process/<filename>]. *)
Inductive Event :=
| Index
| Upload (req : Request)
| Process (filename : string).

Definition handle (st : State) (ev : Event) : State * Response :=
  match ev with
  | Index => (st, Page "index.html")
  | Upload req => upload_file st req
  | Process filename => process_file st filename
  end.

(** A sequence of requests served one after the other. *)
Fixpoint serve (st : State) (evs : list Event) : State * list Response :=
  match evs with
  | [] => (st, [])
  | ev :: evs' =>
      let '(st1, r) := handle st ev in
      let '(st2, rs) := serve st1 evs' in
      (st2, r :: rs)
  end.

(** The states a server reaches from its start by the requests it serves. *)
Inductive reachable : State → Prop :=
| reachable_init : reachable init
| reachable_step st ev : reachable st → reachable (handle st ev).1.

(** What [uploads/] may hold: a sheet the server wrote, under
    [output.xlsx], and files saved by [upload_file] under the sanitised name
    of an allowed file name. *)
Definition uploads_ok (st : State) : Prop :=
  ∀ n b, uploads st !! n = Some b →
    (n = OUTPUT ∧ ∃ sheet, b = SheetFile sheet) ∨
    ∃ name, allowed_file name = true ∧ secure_filename name = n ∧ n ≠ "".

(** The content of the last [send_file] response of a run, if any. *)
Definition sent_sheet (prev : option Blob) (r : Response) : option Blob :=
  match r with SendFile _ b => Some b | _ => prev end.

Definition last_sent (rs : list Response) : option Blob := foldl sent_sheet None rs.

End server.

(** ** Properties *)

(** The files of a walk with their names, in walk order. *)
Definition walk_files (w : list (string * list (string * Blob))) : list (string * Blob) :=
  mjoin (map snd w).

(** The stored files, by name. *)
Definition stored_files (m : gmap (list string) Blob) : list (string * Blob) :=
  (λ pb : list string * Blob, (basename pb.1, pb.2)) <$> map_to_list m.

(** The paths under [uploads/extracted/] a request may write. *)
Definition writes (st : State) (ev : Event) : list (list string) :=
  match ev with
  | Index | Upload _ => []
  | Process f =>
      if py_endswith ".zip" f then
        from_option (λ ms, fst <$> ms) [] (uploads st !! f ≫= open_zip)
      else [[f]]
  end.

Lemma extractall_lookup_other ms m p :
  p ∉ (fst <$> ms) → extractall ms m !! p = m !! p.
Proof.
  unfold extractall. revert m; induction ms as [|[q b] ms IH]; intros m Hp; simpl; [done|].
  rewrite IH by set_solver. apply lookup_insert_ne. set_solver.
Qed.

Lemma extractall_is_Some ms m p :
  is_Some (m !! p) → is_Some (extractall ms m !! p).
Proof.
  unfold extractall. revert m; induction ms as [|[q b] ms IH]; intros m Hp; simpl; [done|].
  apply IH. rewrite lookup_insert. case_decide; [done|done].
Qed.

Lemma unpack_Ok st f st1 :
  unpack st f = Ok st1 →
  (py_endswith ".zip" f = true ∧ ∃ b ms, uploads st !! f = Some b ∧ open_zip b = Some ms ∧
     st1 = mkState (uploads st) (extractall ms (extracted st))) ∨
  (py_endswith ".zip" f = false ∧ ∃ b, uploads st !! f = Some b ∧
     st1 = mkState (delete f (uploads st)) (<[[f] := b]> (extracted st))).
Proof.
  unfold unpack. destruct (py_endswith ".zip" f); intros H.
  - left. split; [done|].
    destruct (uploads st !! f) as [b|]; cbn [ok_or mbind py_bind] in H; [|discriminate].
    destruct (open_zip b) as [ms|] eqn:Hz; cbn [ok_or mbind py_bind] in H; [|discriminate].
    injection H as <-. eauto.
  - right. split; [done|].
    destruct (uploads st !! f) as [b|]; cbn [ok_or mbind py_bind] in H; [|discriminate].
    injection H as <-. eauto.
Qed.

Lemma unpack_moved st f b :
  py_endswith ".zip" f = false → uploads st !! f = Some b →
  unpack st f = Ok (mkState (delete f (uploads st)) (<[[f] := b]> (extracted st))).
Proof. intros Hz Hb. unfold unpack. by rewrite Hz, Hb. Qed.

Lemma unpack_zip st f b ms :
  py_endswith ".zip" f = true → uploads st !! f = Some b → open_zip b = Some ms →
  unpack st f = Ok (mkState (uploads st) (extractall ms (extracted st))).
Proof. intros Hz Hb Hms. unfold unpack. rewrite Hz, Hb. simpl. by rewrite Hms. Qed.

Lemma extractall_cons pb ms m : extractall (pb :: ms) m = extractall ms (<[pb.1 := pb.2]> m).
Proof. done. Qed.

(** With no two members of the same path, each member is what is stored. *)
Lemma extractall_lookup_elem ms m p b :
  NoDup ms.*1 → (p, b) ∈ ms → extractall ms m !! p = Some b.
Proof.
  revert m; induction ms as [|[q c] ms IH]; intros m Hnd Hin; [by apply elem_of_nil in Hin|].
  rewrite extractall_cons. apply NoDup_cons in Hnd as [Hq Hnd].
  apply elem_of_cons in Hin as [[= -> ->]|Hin]; [|by apply IH].
  rewrite extractall_lookup_other by done. simpl. by rewrite lookup_insert, decide_True.
Qed.

Lemma extractall_empty ms : NoDup ms.*1 → extractall ms ∅ = list_to_map ms.
Proof.
  intros Hnd. apply map_eq. intros p. destruct (list_to_map ms !! p) as [b|] eqn:E.
  - apply elem_of_list_to_map_2 in E. by apply extractall_lookup_elem.
  - apply not_elem_of_list_to_map_2 in E. by rewrite extractall_lookup_other.
Qed.

Lemma stored_files_list_to_map ms :
  NoDup ms.*1 →
  stored_files (list_to_map ms) ≡ₚ (λ pb : list string * Blob, (basename pb.1, pb.2)) <$> ms.
Proof. intros Hnd. unfold stored_files. by rewrite map_to_list_to_map. Qed.

(** What a name [allowed_file] accepts looks like. *)
Lemma allowed_file_inv f :
  allowed_file f = true →
  ∃ pre ext, f = pre ++ String "." ext ∧ py_in "." ext = false ∧
    py_lower ext ∈ ALLOWED_EXTENSIONS.
Proof.
  unfold allowed_file, py_rsplit1. destruct (py_in "." f) eqn:Hin; [|discriminate].
  destruct (rsplit_last "." f) as [[pre post]|] eqn:E.
  - apply rsplit_last_Some in E as [-> Hpost]. simpl. rewrite bool_decide_eq_true. eauto.
  - apply rsplit_last_None in E. congruence.
Qed.

(** A name with a last extension [allowed_file] accepts. *)
Lemma allowed_file_ext pre ext :
  py_in "." ext = false → py_lower ext ∈ ALLOWED_EXTENSIONS →
  allowed_file (pre ++ String "." ext) = true.
Proof.
  intros Hext Hlow. unfold allowed_file, py_rsplit1. rewrite py_in_app.
  rewrite (proj2 (rsplit_last_Some _ _ pre ext) (conj eq_refl Hext)). simpl.
  by apply bool_decide_eq_true.
Qed.

Section properties.
Context (secure_filename : string → string).
Context (walk : gmap (list string) Blob → list (string * list (string * Blob))).

(** What the model assumes of [os.walk]: it lists every stored file once,
    in some order. *)
Hypothesis walk_lists : ∀ m, walk_files (walk m) ≡ₚ stored_files m.

Lemma process_file_extracted st f :
  extracted (process_file walk st f).1 =
    match unpack st f with Ok st1 => extracted st1 | Raise _ => extracted st end.
Proof.
  unfold process_file. destruct (unpack st f) as [st1|]; [|done].
  by destruct (aggregate _ _).
Qed.

(** A request only changes [uploads/extracted/] at the paths it writes. *)
Lemma handle_frame st ev p :
  p ∉ writes st ev →
  extracted (handle secure_filename walk st ev).1 !! p = extracted st !! p.
Proof.
  destruct ev as [|req|f]; simpl; [done| |].
  - intros _. unfold upload_file. by repeat case_match.
  - rewrite process_file_extracted. intros Hp.
    destruct (unpack st f) as [st1|] eqn:E; [|done].
    apply unpack_Ok in E as [(Hz & b & ms & Hb & Hms & ->)|(Hz & b & Hb & ->)];
      rewrite Hz, ?Hb in Hp; simpl in *.
    + rewrite Hms in Hp. simpl in Hp. by apply extractall_lookup_other.
    + apply lookup_insert_ne. set_solver.
Qed.

Lemma handle_is_Some st ev p :
  is_Some (extracted st !! p) →
  is_Some (extracted (handle secure_filename walk st ev).1 !! p).
Proof.
  destruct ev as [|req|f]; simpl; [done| |].
  - intros H. unfold upload_file. by repeat case_match.
  - rewrite process_file_extracted. intros Hp.
    destruct (unpack st f) as [st1|] eqn:E; [|done].
    apply unpack_Ok in E as [(_ & b & ms & _ & _ & ->)|(_ & b & _ & ->)]; simpl.
    + by apply extractall_is_Some.
    + rewrite lookup_insert. by case_decide.
Qed.

Lemma xml_files_walk m :
  xml_files (walk m) ≡ₚ filter (λ fb, is_xml_file fb.1 = true) (stored_files m).
Proof.
  unfold xml_files. change (mjoin (map snd (walk m))) with (walk_files (walk m)).
  by rewrite walk_lists.
Qed.

(** The walk of a folder holding one file. *)
Lemma xml_files_singleton p b :
  xml_files (walk {[p := b]}) =
    if is_xml_file (basename p) then [(basename p, b)] else [].
Proof.
  unfold xml_files. change (mjoin (map snd (walk {[p := b]}))) with (walk_files (walk {[p := b]})).
  pose proof (walk_lists {[p := b]}) as Hp. unfold stored_files in Hp.
  rewrite map_to_list_singleton in Hp. apply Permutation_singleton_r in Hp. rewrite Hp.
  rewrite filter_cons, filter_nil. cbn [fst snd].
  cbn [snd]. case_decide; destruct (is_xml_file (basename p)); congruence.
Qed.

Lemma upload_file_uploads st req n b :
  uploads (upload_file secure_filename st req).1 !! n = Some b →
  uploads st !! n = Some b ∨
    ∃ name, allowed_file name = true ∧ secure_filename name = n ∧ n ≠ "".
Proof.
  unfold upload_file. repeat case_match; simpl; auto.
  rewrite lookup_insert_Some. naive_solver.
Qed.

Lemma process_file_uploads st f n b :
  uploads (process_file walk st f).1 !! n = Some b →
  uploads st !! n = Some b ∨ (n = OUTPUT ∧ ∃ sheet, b = SheetFile sheet).
Proof.
  unfold process_file. destruct (unpack st f) as [st1|] eqn:E; [|auto].
  assert (Hsub : uploads st1 !! n = Some b → uploads st !! n = Some b).
  { apply unpack_Ok in E as [(_ & ? & ? & _ & _ & ->)|(_ & ? & _ & ->)]; simpl; [done|].
    rewrite lookup_delete_Some. naive_solver. }
  destruct (aggregate _ _); simpl; [|auto].
  rewrite lookup_insert_Some. naive_solver.
Qed.

(** The branch of [upload_file] that saves the file. *)
Lemma upload_file_saves st req file :
  dict_get "file" (req_files req) = Some file → fs_filename file ≠ "" →
  allowed_file (fs_filename file) = true → secure_filename (fs_filename file) ≠ "" →
  upload_file secure_filename st req =
    (mkState (<[secure_filename (fs_filename file) := fs_content file]> (uploads st))
       (extracted st),
     Redirect ("/process/" ++ secure_filename (fs_filename file))).
Proof.
  intros Hget Hne Ha Hs. unfold upload_file. by rewrite Hget, decide_False, Ha, decide_False.
Qed.


(** How a processing request changes [output.xlsx]: it fails, leaving at
    most the sheet that was there, or it sends the sheet it stores there. *)
Lemma process_file_output st f :
  ((∃ e, (process_file walk st f).2 = ServerError e) ∧
   ∀ b, uploads (process_file walk st f).1 !! OUTPUT = Some b → uploads st !! OUTPUT = Some b) ∨
  (∃ sheet, (process_file walk st f).2 = SendFile (upload_path OUTPUT) (SheetFile sheet) ∧
     uploads (process_file walk st f).1 !! OUTPUT = Some (SheetFile sheet)).
Proof.
  unfold process_file. destruct (unpack st f) as [st1|e] eqn:E; [|left; eauto].
  destruct (aggregate _ _) as [data|e]; [right|left]; simpl.
  - eexists. split; [done|]. apply lookup_insert_eq.
  - split; [eauto|]. intros b.
    apply unpack_Ok in E as [(_ & ? & ? & _ & _ & ->)|(_ & ? & _ & ->)]; simpl; [done|].
    rewrite lookup_delete_Some. naive_solver.
Qed.

Lemma upload_file_response st req :
  (∃ url, (upload_file secure_filename st req).2 = Redirect url) ∨
  (∃ e, (upload_file secure_filename st req).2 = ServerError e).
Proof. unfold upload_file. repeat case_match; simpl; eauto. Qed.

(** C21: [allowed_file] accepts exactly the names with a dot whose part
    after the last dot is [zip] or [xml] in any letter case. *)
Theorem allowed_file_spec f :
  allowed_file f = true ↔
    ∃ pre ext, f = pre ++ String "." ext ∧ py_in "." ext = false ∧
      py_lower ext ∈ ALLOWED_EXTENSIONS.
Proof.
  split; [apply allowed_file_inv|]. intros (pre & ext & -> & Hext & Hlow).
  by apply allowed_file_ext.
Qed.

Lemma stored_in_xml_files m p b :
  m !! p = Some b → is_xml_file (basename p) = true → (basename p, b) ∈ xml_files (walk m).
Proof.
  intros Hp Hx. unfold xml_files. apply list_elem_of_filter. split; [done|].
  change (mjoin (map snd (walk m))) with (walk_files (walk m)).
  rewrite (walk_lists m). apply list_elem_of_fmap. exists (p, b).
  split; [done|]. by apply elem_of_map_to_list.
Qed.

(** A run that reaches an [.xml] file which does not extract raises. *)
Lemma process_bad_file st f p b e :
  extracted (process_file walk st f).1 !! p = Some b → is_xml_file (basename p) = true →
  extract_all_info_from_xml (parse_xml b) = Raise e →
  ∃ e', (process_file walk st f).2 = ServerError e'.
Proof.
  unfold process_file. destruct (unpack st f) as [st1|e1]; simpl; [|eauto].
  destruct (aggregate _ _) as [data|e2] eqn:Hagg; simpl; [|eauto].
  intros Hp Hx He. exfalso.
  apply aggregate_Ok_inv in Hagg as (rowss & Hf & _).
  destruct (Forall2_elem_l _ _ _ _ Hf (stored_in_xml_files _ _ _ Hp Hx)) as (rows & _ & Hr).
  simpl in Hr. congruence.
Qed.

(** The paths no request of a run writes. *)
Fixpoint untouched (st : State) (evs : list Event) (p : list string) : Prop :=
  match evs with
  | [] => True
  | ev :: evs' => (p ∉ writes st ev) ∧ untouched ((handle secure_filename walk st ev).1) evs' p
  end.

Lemma serve_cons st ev evs :
  serve secure_filename walk st (ev :: evs) =
    ((serve secure_filename walk (handle secure_filename walk st ev).1 evs).1,
     (handle secure_filename walk st ev).2 ::
       (serve secure_filename walk (handle secure_filename walk st ev).1 evs).2).
Proof.
  cbn [serve]. destruct (handle secure_filename walk st ev) as [st1 r].
  cbn [fst snd]. by destruct (serve secure_filename walk st1 evs).
Qed.

Lemma serve_reachable st evs :
  reachable secure_filename walk st → reachable secure_filename walk (serve secure_filename walk st evs).1.
Proof.
  revert st; induction evs as [|ev evs IH]; intros st Hst; [done|].
  rewrite serve_cons. apply IH. by constructor.
Qed.

(** C22: [upload_file] never touches [uploads/extracted/]; it either leaves
    the state alone or saves the request's [file] under the sanitised name
    of an allowed, non-empty file name (replacing any earlier file of that
    name) and redirects to its processing page. *)
Theorem upload_file_effect st req :
  extracted (upload_file secure_filename st req).1 = extracted st ∧
  ((upload_file secure_filename st req).1 = st ∨
   ∃ file, dict_get "file" (req_files req) = Some file ∧ fs_filename file ≠ "" ∧
     allowed_file (fs_filename file) = true ∧ secure_filename (fs_filename file) ≠ "" ∧
     upload_file secure_filename st req =
       (mkState (<[secure_filename (fs_filename file) := fs_content file]> (uploads st))
          (extracted st),
        Redirect ("/process/" ++ secure_filename (fs_filename file)))).
Proof.
  unfold upload_file.
  destruct (dict_get "file" (req_files req)) as [file|]; [|auto].
  case_decide; [auto|]. destruct (allowed_file _) eqn:Ha; [|auto].
  case_decide; [auto|]. split; [done|]. right. eauto 10.
Qed.

(** C23: a file under [uploads/extracted/] stays there for every later
    request: the folder is never emptied, so it only grows over the server's
    life. *)
Theorem extracted_only_grows st evs p :
  is_Some (extracted st !! p) →
  is_Some (extracted (serve secure_filename walk st evs).1 !! p).
Proof.
  revert st; induction evs as [|ev evs IH]; intros st Hp; [done|].
  rewrite serve_cons. apply IH. by apply handle_is_Some.
Qed.

(** C24: a successful export reads the whole of [uploads/extracted/], not
    only the file just uploaded: the rows of every [.xml] file there, of
    this upload or of any earlier one, are a contiguous block of the
    sheet's data. *)
Theorem process_reads_whole_folder st f st' sheet :
  process_file walk st f = (st', SendFile (upload_path OUTPUT) (SheetFile sheet)) →
  ∃ data, sheet = to_excel (dataframe data) ∧
    ∀ p b, extracted st' !! p = Some b → is_xml_file (basename p) = true →
      ∃ rows pre post, extract_all_info_from_xml (parse_xml b) = Ok rows ∧
        data = (pre ++ rows ++ post)%list.
Proof.
  unfold process_file. destruct (unpack st f) as [st1|]; [|discriminate].
  destruct (aggregate _ _) as [data|] eqn:Hagg; [|discriminate].
  intros [= <- <-]. exists data. split; [done|]. intros p b Hp Hx. simpl in Hp.
  apply aggregate_Ok_inv in Hagg as (rowss & Hf & ->).
  destruct (Forall2_elem_l _ _ _ _ Hf (stored_in_xml_files _ _ _ Hp Hx))
    as (rows & Hin & Hrows).
  destruct (join_infix _ _ Hin) as (pre & post & ?). eauto.
Qed.

(** C25: once an [.xml] file that does not extract (not well-formed, or
    an invoice the extractor rejects) is in [uploads/extracted/], every
    later processing request fails with a server error, whatever it
    uploads, until a request writes that very path. *)
Theorem poisoned_until_overwritten st evs p b e :
  extracted st !! p = Some b → is_xml_file (basename p) = true →
  extract_all_info_from_xml (parse_xml b) = Raise e → untouched st evs p →
  Forall2 (λ ev r, ∀ f, ev = Process f → ∃ e', r = ServerError e') evs
    (serve secure_filename walk st evs).2.
Proof.
  intros Hp Hx He. revert st Hp.
  induction evs as [|ev evs IH]; intros st Hp Hu; [constructor|].
  destruct Hu as [Hw Hu]. rewrite serve_cons.
  pose proof (handle_frame st ev p Hw) as Hp1. rewrite Hp in Hp1.
  constructor.
  - intros f ->. eapply process_bad_file; [exact Hp1|done|exact He].
  - by apply IH.
Qed.

(** C26: an upload whose name passes [allowed_file] but ends neither in
    [.zip] nor in [.xml] (such as [INVOICES.ZIP] or [A.XML]: [allowed_file]
    lower-cases the extension, [process_file] does not) is moved into
    [uploads/extracted/] unopened; on a fresh folder the export is an empty
    sheet whatever the file holds. *)
Theorem uppercase_upload_ignored st f b :
  py_endswith ".zip" f = false → is_xml_file f = false →
  uploads st !! f = Some b → extracted st = ∅ →
  process_file walk st f =
    (mkState (<[OUTPUT := SheetFile [[]]]> (delete f (uploads st))) (<[[f] := b]> ∅),
     SendFile (upload_path OUTPUT) (SheetFile [[]])).
Proof.
  intros Hz Hx Hb He. unfold process_file, unpack. rewrite Hz, Hb, He.
  cbn [ok_or mbind py_bind].
  assert (Hxml : xml_files (walk (<[[f] := b]> ∅)) = []).
  { rewrite insert_empty, xml_files_singleton. cbn [basename last default]. unfold id.
    by rewrite Hx. }
  unfold aggregate. rewrite walk_loop_spec. cbn [extracted uploads]. rewrite Hxml. done.
Qed.

(** C27: processing a non-ZIP upload moves it out of [uploads/], so
    requesting [/process/<filename>] again fails with [FileNotFoundError]. *)
Theorem reprocess_fails st f st1 :
  py_endswith ".zip" f = false → f ≠ OUTPUT → unpack st f = Ok st1 →
  (process_file walk (process_file walk st f).1 f).2 =
    ServerError (FileNotFoundError (upload_path f)).
Proof.
  intros Hz Hf Hu.
  assert (Hgone : uploads (process_file walk st f).1 !! f = None).
  { unfold process_file. rewrite Hu.
    apply unpack_Ok in Hu as [[Hz' _]|(_ & b & _ & ->)]; [congruence|].
    destruct (aggregate _ _); simpl; [|apply lookup_delete_eq].
    rewrite lookup_insert_ne by congruence. apply lookup_delete_eq. }
  remember (process_file walk st f).1 as st'.
  unfold process_file, unpack. rewrite Hz, Hgone. done.
Qed.

(** C28: in every sheet the server sends, each data row has the same value
    in the settlement and the disbursed columns. *)
Theorem sheet_money_columns_equal st f st' sheet :
  process_file walk st f = (st', SendFile (upload_path OUTPUT) (SheetFile sheet)) →
  ∃ header rows, sheet = header :: rows ∧
    ∀ row j1 j2, row ∈ rows →
      header !! j1 = Some (Some K_GT) → header !! j2 = Some (Some K_STGN) →
      row !! j1 = row !! j2.
Proof.
  unfold process_file. destruct (unpack st f) as [st1|]; [|discriminate].
  destruct (aggregate _ _) as [data|] eqn:Hagg; [|discriminate].
  intros [= <- <-]. eexists _, _. split; [reflexivity|].
  intros row j1 j2 (r & -> & Hr)%list_elem_of_fmap H1 H2.
  rewrite list_lookup_fmap in H1, H2. cbn [df_columns dataframe] in H1, H2. rewrite !list_lookup_fmap.
  destruct (union_columns data !! j1) as [c1|]; [|discriminate].
  destruct (union_columns data !! j2) as [c2|]; [|discriminate].
  injection H1 as ->. injection H2 as ->. simpl. unfold df_cell.
  destruct (aggregate_rows _ _ _ _ Hagg Hr) as (hdon & Hh).
  by rewrite (row_money_equal _ _ Hh).
Qed.

(** C29: on a fresh server, uploading one well-formed XML invoice file and
    then following the redirect returns the sheet of exactly that file's
    rows, one per [DLHDon], in document order. *)
Theorem upload_then_process_xml req file root rows :
  dict_get "file" (req_files req) = Some file → fs_content file = XmlFile root →
  fs_filename file ≠ "" → allowed_file (fs_filename file) = true →
  is_xml_file (secure_filename (fs_filename file)) = true →
  extract_all_info_from_xml (Some root) = Ok rows →
  (serve secure_filename walk init
     [Upload req; Process (secure_filename (fs_filename file))]).2 =
    [Redirect ("/process/" ++ secure_filename (fs_filename file));
     SendFile (upload_path OUTPUT) (SheetFile (to_excel (dataframe rows)))].
Proof.
  intros Hget Hb Hne Ha Hx Hrows.
  assert (Hs : secure_filename (fs_filename file) ≠ "")
    by (eapply py_endswith_nonempty; [exact Hx|discriminate]).
  assert (Hz : py_endswith ".zip" (secure_filename (fs_filename file)) = false).
  { apply py_endswith_spec in Hx as [pre ->]. by rewrite py_endswith_app. }
  cbn [serve handle]. rewrite (upload_file_saves _ _ _ Hget Hne Ha Hs). cbn [fst snd].
  unfold process_file. rewrite (unpack_moved _ _ (fs_content file)) by (done || apply lookup_insert_eq).
  cbn [uploads extracted init]. rewrite Hb, insert_empty, (aggregate_intro _ _ [rows]).
  - cbn [snd]. change (mjoin [rows]) with (rows ++ [])%list. by rewrite app_nil_r.
  - rewrite xml_files_singleton. cbn [basename last default]. unfold id. rewrite Hx.
    by constructor.
Qed.

(** C30: on a fresh server, uploading a ZIP archive (no two members of the
    same path) whose [.xml] members all extract, then following the
    redirect, returns the sheet of the rows of exactly those members, each
    member once, in the order [os.walk] lists them. *)
Theorem upload_then_process_zip req file ms :
  dict_get "file" (req_files req) = Some file → fs_content file = ZipFile ms →
  fs_filename file ≠ "" → allowed_file (fs_filename file) = true →
  py_endswith ".zip" (secure_filename (fs_filename file)) = true →
  NoDup ms.*1 →
  Forall (λ pb : list string * Blob, is_xml_file (basename pb.1) = true →
            ∃ rows, extract_all_info_from_xml (parse_xml pb.2) = Ok rows) ms →
  ∃ files rowss,
    files ≡ₚ filter (λ fb, is_xml_file fb.1 = true)
               ((λ pb : list string * Blob, (basename pb.1, pb.2)) <$> ms) ∧
    Forall2 (λ fb rows, extract_all_info_from_xml (parse_xml fb.2) = Ok rows) files rowss ∧
    (serve secure_filename walk init
       [Upload req; Process (secure_filename (fs_filename file))]).2 =
      [Redirect ("/process/" ++ secure_filename (fs_filename file));
       SendFile (upload_path OUTPUT) (SheetFile (to_excel (dataframe (mjoin rowss))))].
Proof.
  intros Hget Hb Hne Ha Hz Hnd Hall.
  assert (Hs : secure_filename (fs_filename file) ≠ "")
    by (eapply py_endswith_nonempty; [exact Hz|discriminate]).
  set (files := xml_files (walk (extractall ms ∅))).
  assert (Hperm : files ≡ₚ filter (λ fb, is_xml_file fb.1 = true)
                    ((λ pb : list string * Blob, (basename pb.1, pb.2)) <$> ms)).
  { unfold files. by rewrite xml_files_walk, extractall_empty, stored_files_list_to_map. }
  assert (Hex : Forall (λ fb, ∃ rows, extract_all_info_from_xml (parse_xml fb.2) = Ok rows)
                  files).
  { rewrite Hperm, Forall_forall. rewrite Forall_forall in Hall.
    intros fb (Hx & (pb & -> & Hpb)%list_elem_of_fmap)%list_elem_of_filter. by apply Hall. }
  destruct (Forall_Forall2_exists _ _ Hex) as [rowss Hrowss].
  exists files, rowss. split; [done|]. split; [done|].
  cbn [serve handle]. rewrite (upload_file_saves _ _ _ Hget Hne Ha Hs). cbn [fst snd].
  unfold process_file. rewrite (unpack_zip _ _ (fs_content file) ms) by (done || apply lookup_insert_eq || by rewrite Hb).
  cbn [uploads extracted init]. by rewrite (aggregate_intro _ _ rowss Hrowss).
Qed.

(** C31: in every state the server reaches, each file of [uploads/] is
    either a sheet the server wrote, stored as [output.xlsx], or a file
    saved under the non-empty sanitised name of a file name [allowed_file]
    accepted. *)
Theorem reachable_uploads_ok st :
  reachable secure_filename walk st → uploads_ok secure_filename st.
Proof.
  induction 1 as [|st [|req|f] _ IH]; intros n b Hn; simpl in Hn.
  - by rewrite lookup_empty in Hn.
  - by apply (IH n b).
  - apply upload_file_uploads in Hn as [Hn|Hn]; [by apply (IH n b)|by right].
  - apply process_file_uploads in Hn as [Hn|Hn]; [by apply (IH n b)|by left].
Qed.

(** C35: when no allowed file name is sanitised to [output.xlsx], the file
    [uploads/output.xlsx] of any run from a fresh server, if there is one,
    is a sheet, and it is the one the last [send_file] response of the run
    carried. *)
Theorem output_is_last_sheet evs b :
  (∀ n, allowed_file n = true → secure_filename n ≠ OUTPUT) →
  uploads (serve secure_filename walk init evs).1 !! OUTPUT = Some b →
  (∃ sheet, b = SheetFile sheet) ∧ last_sent (serve secure_filename walk init evs).2 = Some b.
Proof.
  intros Hsf. unfold last_sent.
  cut (∀ st prev, (∀ b, uploads st !! OUTPUT = Some b → (∃ s, b = SheetFile s) ∧ prev = Some b) →
         ∀ b, uploads (serve secure_filename walk st evs).1 !! OUTPUT = Some b →
           (∃ s, b = SheetFile s) ∧
           foldl sent_sheet prev (serve secure_filename walk st evs).2 = Some b).
  { intros Hgen. apply Hgen. intros b' Hb'. cbn [init uploads] in Hb'. by rewrite lookup_empty in Hb'. }
  induction evs as [|ev evs IH]; intros st prev Hinv; [done|].
  rewrite serve_cons. cbn [foldl]. apply IH. intros b' Hb'.
  destruct ev as [|req|f]; simpl in *; [by apply Hinv|..].
  - destruct (upload_file_response st req) as [[url ->]|[e ->]]; simpl;
      (apply upload_file_uploads in Hb' as [Hb'|(n & Ha & Hn & _)];
       [by apply Hinv|by destruct (Hsf n Ha)]).
  - destruct (process_file_output st f) as [[[e ->] Hsub]|(sheet & -> & Hout)]; simpl.
    + by apply Hinv, Hsub.
    + rewrite Hout in Hb'. injection Hb' as <-. eauto.
Qed.

End properties.

(** ** Witnesses

    [os.walk] of a folder with no sub-folders: one directory listing every
    stored file; and the identity for [secure_filename] on plain names. *)

Definition flat_walk (m : gmap (list string) Blob) : list (string * list (string * Blob)) :=
  [("uploads/extracted", stored_files m)].

Lemma flat_walk_lists m : walk_files (flat_walk m) ≡ₚ stored_files m.
Proof. unfold walk_files, flat_walk. simpl. by rewrite app_nil_r. Qed.

Definition plain_name (s : string) : string := s.

Definition upload_req (name : string) (b : Blob) : Request :=
  mkRequest "/upload" [("file", mkFileStorage name b)].

(** A folder holding the rows of an earlier upload and a new invoice. *)
Definition demo_state : State :=
  mkState {[ "new.xml" := XmlFile sample_doc ]} {[ ["old.xml"] := XmlFile sample_doc ]}.

(** A folder holding a file that is not XML under an [.xml] name. *)
Definition poisoned_state : State :=
  mkState ∅ {[ ["bad.xml"] := RawFile ]}.

Lemma extracted_only_grows_witness :
  is_Some (extracted demo_state !! ["old.xml"]) ∧
  is_Some (extracted (serve plain_name flat_walk demo_state
                        [Process "new.xml"; Upload (upload_req "b.zip" RawFile);
                         Process "b.zip"]).1 !! ["old.xml"]).
Proof.
  split; [eexists; reflexivity|]. apply extracted_only_grows. eexists; reflexivity.
Defined.

Lemma process_reads_whole_folder_witness :
  ∃ st' sheet,
    process_file flat_walk demo_state "new.xml" =
      (st', SendFile (upload_path OUTPUT) (SheetFile sheet)) ∧
    extracted st' !! ["old.xml"] = Some (XmlFile sample_doc) ∧
    ∃ data, sheet = to_excel (dataframe data) ∧
      ∀ p b, extracted st' !! p = Some b → is_xml_file (basename p) = true →
        ∃ rows pre post, extract_all_info_from_xml (parse_xml b) = Ok rows ∧
          data = (pre ++ rows ++ post)%list.
Proof.
  do 2 eexists. split; [reflexivity|]. split; [reflexivity|].
  apply (process_reads_whole_folder flat_walk flat_walk_lists demo_state "new.xml").
  reflexivity.
Defined.

Lemma poisoned_until_overwritten_witness :
  extracted poisoned_state !! ["bad.xml"] = Some RawFile ∧
  is_xml_file (basename ["bad.xml"]) = true ∧
  extract_all_info_from_xml (parse_xml RawFile) = Raise ParseError ∧
  untouched plain_name flat_walk poisoned_state
    [Upload (upload_req "inv.xml" (XmlFile sample_doc)); Process "inv.xml"] ["bad.xml"] ∧
  Forall2 (λ ev r, ∀ f, ev = Process f → ∃ e', r = ServerError e')
    [Upload (upload_req "inv.xml" (XmlFile sample_doc)); Process "inv.xml"]
    (serve plain_name flat_walk poisoned_state
       [Upload (upload_req "inv.xml" (XmlFile sample_doc)); Process "inv.xml"]).2.
Proof.
  assert (Hu : untouched plain_name flat_walk poisoned_state
    [Upload (upload_req "inv.xml" (XmlFile sample_doc)); Process "inv.xml"] ["bad.xml"]).
  { simpl. split; [set_solver|]. split; [|done].
    apply (bool_decide_unpack _). vm_compute. reflexivity. }
  split; [reflexivity|]. split; [reflexivity|]. split; [reflexivity|]. split; [exact Hu|].
  apply (poisoned_until_overwritten plain_name flat_walk flat_walk_lists poisoned_state _
    ["bad.xml"] RawFile ParseError); [reflexivity|reflexivity|reflexivity|exact Hu].
Defined.

Definition upper_state : State := mkState {[ "A.XML" := XmlFile sample_doc ]} ∅.

Lemma uppercase_upload_ignored_witness :
  allowed_file "A.XML" = true ∧
  upload_file plain_name init (upload_req "A.XML" (XmlFile sample_doc)) =
    (upper_state, Redirect "/process/A.XML") ∧
  process_file flat_walk upper_state "A.XML" =
    (mkState (<[OUTPUT := SheetFile [[]]]> (delete "A.XML" (uploads upper_state)))
       (<[["A.XML"] := XmlFile sample_doc]> ∅),
     SendFile (upload_path OUTPUT) (SheetFile [[]])).
Proof.
  split; [reflexivity|]. split; [reflexivity|].
  apply uppercase_upload_ignored; [apply flat_walk_lists|reflexivity..].
Defined.

Lemma reprocess_fails_witness :
  py_endswith ".zip" "new.xml" = false ∧ "new.xml" ≠ OUTPUT ∧
  ∃ st1, unpack demo_state "new.xml" = Ok st1 ∧
    (process_file flat_walk (process_file flat_walk demo_state "new.xml").1 "new.xml").2 =
      ServerError (FileNotFoundError (upload_path "new.xml")).
Proof.
  split; [reflexivity|]. split; [discriminate|]. eexists. split; [reflexivity|].
  eapply (reprocess_fails flat_walk demo_state "new.xml"); [reflexivity|discriminate|reflexivity].
Defined.

Lemma sheet_money_columns_equal_witness :
  ∃ st' sheet,
    process_file flat_walk demo_state "new.xml" =
      (st', SendFile (upload_path OUTPUT) (SheetFile sheet)) ∧
    ∃ header rows, sheet = header :: rows ∧
      ∀ row j1 j2, row ∈ rows →
        header !! j1 = Some (Some K_GT) → header !! j2 = Some (Some K_STGN) →
        row !! j1 = row !! j2.
Proof.
  do 2 eexists. split; [reflexivity|].
  eapply (sheet_money_columns_equal flat_walk demo_state "new.xml"). reflexivity.
Defined.

Lemma upload_then_process_xml_witness :
  ∃ rows, extract_all_info_from_xml (Some sample_doc) = Ok rows ∧
    (serve plain_name flat_walk init
       [Upload (upload_req "inv.xml" (XmlFile sample_doc)); Process "inv.xml"]).2 =
      [Redirect "/process/inv.xml";
       SendFile (upload_path OUTPUT) (SheetFile (to_excel (dataframe rows)))].
Proof.
  eexists. split; [reflexivity|].
  apply (upload_then_process_xml plain_name flat_walk flat_walk_lists
           (upload_req "inv.xml" (XmlFile sample_doc)) (mkFileStorage "inv.xml" (XmlFile sample_doc))
           sample_doc); first [reflexivity | discriminate].
Defined.

(** An archive with two invoices, one in a sub-folder, and a text file. *)
Definition sample_zip : list (list string * Blob) :=
  [(["a.xml"], XmlFile sample_doc); (["sub"; "b.xml"], XmlFile sample_one_hdon);
   (["readme.txt"], RawFile)].

Lemma upload_then_process_zip_witness :
  ∃ files rowss,
    files ≡ₚ filter (λ fb, is_xml_file fb.1 = true)
               ((λ pb : list string * Blob, (basename pb.1, pb.2)) <$> sample_zip) ∧
    Forall2 (λ fb rows, extract_all_info_from_xml (parse_xml fb.2) = Ok rows) files rowss ∧
    (serve plain_name flat_walk init
       [Upload (upload_req "in.zip" (ZipFile sample_zip)); Process "in.zip"]).2 =
      [Redirect "/process/in.zip";
       SendFile (upload_path OUTPUT) (SheetFile (to_excel (dataframe (mjoin rowss))))].
Proof.
  apply (upload_then_process_zip plain_name flat_walk flat_walk_lists
           (upload_req "in.zip" (ZipFile sample_zip)) (mkFileStorage "in.zip" (ZipFile sample_zip)));
    try first [reflexivity | discriminate].
  - apply (bool_decide_unpack _). vm_compute. reflexivity.
  - repeat constructor; intros Hx; first [discriminate Hx | eexists; reflexivity].
Defined.

Lemma reachable_uploads_ok_witness :
  reachable plain_name flat_walk
    (serve plain_name flat_walk init
       [Upload (upload_req "in.zip" (ZipFile sample_zip)); Process "in.zip";
        Upload (upload_req "inv.xml" (XmlFile sample_doc))]).1 ∧
  uploads_ok plain_name
    (serve plain_name flat_walk init
       [Upload (upload_req "in.zip" (ZipFile sample_zip)); Process "in.zip";
        Upload (upload_req "inv.xml" (XmlFile sample_doc))]).1.
Proof.
  assert (H : reachable plain_name flat_walk
    (serve plain_name flat_walk init
       [Upload (upload_req "in.zip" (ZipFile sample_zip)); Process "in.zip";
        Upload (upload_req "inv.xml" (XmlFile sample_doc))]).1)
    by (apply serve_reachable; constructor).
  split; [exact H|]. exact (reachable_uploads_ok plain_name flat_walk _ H).
Defined.

Lemma output_is_last_sheet_witness :
  ∃ b, uploads (serve plain_name flat_walk init
                  [Upload (upload_req "inv.xml" (XmlFile sample_doc)); Process "inv.xml";
                   Process "missing.xml"]).1 !! OUTPUT = Some b ∧
    (∀ n, allowed_file n = true → plain_name n ≠ OUTPUT) ∧
    (∃ sheet, b = SheetFile sheet) ∧
    last_sent (serve plain_name flat_walk init
                 [Upload (upload_req "inv.xml" (XmlFile sample_doc)); Process "inv.xml";
                  Process "missing.xml"]).2 = Some b.
Proof.
  assert (Hsf : ∀ n, allowed_file n = true → plain_name n ≠ OUTPUT).
  { intros n Ha Hn. unfold plain_name in Hn. subst n. vm_compute in Ha. discriminate Ha. }
  eexists. split; [reflexivity|]. split; [exact Hsf|].
  apply (output_is_last_sheet plain_name flat_walk); [exact Hsf|reflexivity].
Defined.

(** ** With werkzeug's [secure_filename] *)

(** C34: with werkzeug's [secure_filename], [upload_file] never answers
    with a server error: a name [allowed_file] accepts has an ASCII letter
    in its extension, which sanitising keeps, so the [IsADirectoryError]
    of saving under an empty name cannot happen. *)
Theorem upload_never_fails st req e :
  (upload_file Werkzeug.secure_filename st req).2 ≠ ServerError e.
Proof.
  unfold upload_file. repeat case_match; try discriminate. intros _.
  match goal with
  | Ha : allowed_file ?n = true, He : Werkzeug.secure_filename ?n = "" |- _ =>
      apply allowed_file_inv in Ha as (pre & ext & Hn & _ & Hlow);
      pose proof (Werkzeug.secure_filename_letter n) as Hl; rewrite He, Hn in Hl
  end.
  rewrite Werkzeug.any_char_app in Hl. cbn [Werkzeug.any_char] in Hl.
  assert (Hext : Werkzeug.any_char Werkzeug.is_letter ext = true).
  { apply Werkzeug.py_lower_letter.
    unfold ALLOWED_EXTENSIONS in Hlow. repeat setoid_rewrite elem_of_cons in Hlow.
    by destruct Hlow as [->|[->|?%elem_of_nil]]. }
  rewrite Hext, !orb_true_r in Hl. discriminate.
Qed.

(** C32: with werkzeug's [secure_filename], every file [upload_file] saves
    has a non-empty name made of [A-Za-z0-9_.-] only, so without [/], and
    not beginning with [.] or [_] (so neither [.] nor [..]): joined to
    [uploads/] it names a file directly in that folder. *)
Theorem upload_name_safe st req n b :
  uploads (upload_file Werkzeug.secure_filename st req).1 !! n = Some b →
  uploads st !! n = Some b ∨
  (n ≠ "" ∧ Werkzeug.all_chars Werkzeug.is_safe n = true ∧ py_in "/" n = false ∧
   ∀ c t, n = String c t → Werkzeug.is_dot_or_underscore c = false).
Proof.
  intros [Hn|(name & _ & <- & Hne)]%upload_file_uploads; [by left|right].
  split; [done|]. split; [apply Werkzeug.secure_filename_chars|].
  split; [by apply Werkzeug.all_chars_py_in with Werkzeug.is_safe;
          [apply Werkzeug.secure_filename_chars|]|].
  apply Werkzeug.secure_filename_head.
Qed.

(** C33: a file whose name before [.xml] normalises (NFKD) to non-ASCII
    characters only (Han, Cyrillic, Greek, ...) passes [allowed_file] but
    is saved as [xml], which [process_file] moves into [uploads/extracted/]
    and the walk skips: on a fresh server the export is an empty sheet
    whatever the invoice holds.  The normalisation [nfkd] is only assumed
    to leave the suffix [.xml] alone and to map the stem to non-ASCII
    bytes; a Latin stem such as [é] does not satisfy this. *)
Theorem nonlatin_xml_upload_dropped walk nfkd pre root :
  (∀ m, walk_files (walk m) ≡ₚ stored_files m) →
  nfkd (pre ++ ".xml") = nfkd pre ++ ".xml" →
  Werkzeug.all_chars (λ c, Nat.leb 128 (nat_of_ascii c)) (nfkd pre) = true →
  (serve (Werkzeug.secure_filename_nfkd nfkd) walk init
     [Upload (upload_req (pre ++ ".xml") (XmlFile root)); Process "xml"]).2 =
    [Redirect "/process/xml"; SendFile (upload_path OUTPUT) (SheetFile [[]])].
Proof.
  intros Hw Hcat Hpre.
  assert (Hs : Werkzeug.secure_filename_nfkd nfkd (pre ++ ".xml") = "xml")
    by (by apply Werkzeug.secure_filename_nfkd_nonascii_xml).
  cbn [serve handle].
  rewrite (upload_file_saves (Werkzeug.secure_filename_nfkd nfkd) init _
             (mkFileStorage (pre ++ ".xml") (XmlFile root)));
    [|reflexivity|by destruct pre|apply (allowed_file_ext pre "xml"); [done|set_solver]|
     cbn [fs_filename]; by rewrite Hs].
  cbn [fst snd fs_filename fs_content]. rewrite Hs.
  unfold process_file. rewrite (unpack_moved _ _ (XmlFile root)) by (done || apply lookup_insert_eq).
  cbn [uploads extracted init]. rewrite insert_empty, (aggregate_intro _ _ []); [done|].
  rewrite (xml_files_singleton walk Hw). by constructor.
Qed.

Lemma upload_name_safe_witness :
  uploads (upload_file Werkzeug.secure_filename init
             (upload_req "../../etc/passwd.xml" RawFile)).1 !! "etc_passwd.xml" = Some RawFile ∧
  (uploads init !! "etc_passwd.xml" = Some RawFile ∨
   ("etc_passwd.xml" ≠ "" ∧ Werkzeug.all_chars Werkzeug.is_safe "etc_passwd.xml" = true ∧
    py_in "/" "etc_passwd.xml" = false ∧
    ∀ c t, "etc_passwd.xml" = String c t → Werkzeug.is_dot_or_underscore c = false)).
Proof.
  split; [reflexivity|].
  apply (upload_name_safe init (upload_req "../../etc/passwd.xml" RawFile)). reflexivity.
Defined.

(** The UTF-8 bytes of the Chinese word for invoice. *)
Definition fapiao : string :=
  String "229" (String "143" (String "145" (String "231" (String "165" (String "168" ""))))).

(** NFKD leaves Han characters and ASCII unchanged, so on [fapiao ++ ".xml"]
    and on [fapiao] the normalisation is the identity. *)
Definition nfkd_han_ascii (s : string) : string := s.

Lemma nonlatin_xml_upload_dropped_witness :
  allowed_file (fapiao ++ ".xml") = true ∧
  nfkd_han_ascii (fapiao ++ ".xml") = nfkd_han_ascii fapiao ++ ".xml" ∧
  Werkzeug.all_chars (λ c, Nat.leb 128 (nat_of_ascii c)) (nfkd_han_ascii fapiao) = true ∧
  (serve (Werkzeug.secure_filename_nfkd nfkd_han_ascii) flat_walk init
     [Upload (upload_req (fapiao ++ ".xml") (XmlFile sample_doc)); Process "xml"]).2 =
    [Redirect "/process/xml"; SendFile (upload_path OUTPUT) (SheetFile [[]])].
Proof.
  split; [reflexivity|]. split; [reflexivity|]. split; [reflexivity|].
  apply nonlatin_xml_upload_dropped; [apply flat_walk_lists|reflexivity|reflexivity].
Defined.

End Server.
